(** * covid19.py: ingestion, reduction and model fitting of epidemic series

    A shallow embedding of [src/covid19.py].  The module is a pandas / scipy /
    matplotlib script; three of its functions carry the data semantics:

    - [get_data]   reads a CSV file and renames its columns;
    - [clean_data] selects a country, groups by date, derives the active
                   cases and filters each metric by threshold and duplicates;
    - [fit]        fits a model to one series and saves a plot.

    The fourth, [compare], plots what [clean_data] returns for a list of
    countries and is not embedded.

    Python exceptions are results [Raise e]; objects that Python shares by
    reference (data frames) live in an explicit store; the wall clock, the CSV
    reader, the date parser, the numerical solver and the drawing calls are
    parameters. *)

From Stdlib Require Import ZArith List Ascii String Bool Lia.
From stdpp Require Import base option list sorting gmap strings.

(** ** Exceptions and the state-and-exception monad *)

Inductive Exn :=
| KeyError        (* a column label that the frame does not have *)
| IndexError      (* a list or array index out of range *)
| ValueError
| TypeError
| RuntimeError
| OSError         (* the file system refused an operation *)
| BadRef.         (* a reference to no object: unreachable from Python code *)

Inductive result (A : Type) :=
| Ok (a : A)
| Raise (e : Exn).
Arguments Ok {A} a.
Arguments Raise {A} e.

Definition rbind {A B} (r : result A) (k : A → result B) : result B :=
  match r with
  | Ok a => k a
  | Raise e => Raise e
  end.

(** A computation over a store [S]: an exception keeps the store as the
    statements before it left it. *)
Definition M (S A : Type) : Type := S → result A * S.

#[global] Instance M_ret {S} : MRet (M S) := λ A a s, (Ok a, s).
#[global] Instance M_bind {S} : MBind (M S) := λ A B k m s,
  match m s with
  | (Ok a, s') => k a s'
  | (Raise e, s') => (Raise e, s')
  end.

Definition raise {S A} (e : Exn) : M S A := λ s, (Raise e, s).
Definition lift {S A} (r : result A) : M S A := λ s, (r, s).

(** Python's [xs[i]] on a list, for [i >= 0]. *)
Definition py_index {A} (xs : list A) (i : nat) : result A :=
  match xs !! i with
  | Some x => Ok x
  | None => Raise IndexError
  end.

(** ** Ingestion: [get_data] *)

Section Ingestion.

(** The cells of a CSV table are pandas' business: only missing cells
    ([isna]) and the cell [0] that [fillna(0)] writes are visible here. *)
Context {Cell : Type}.
Variable isna : Cell → bool.
Variable zero : Cell.

(** A frame as pandas holds it: named columns, in order. *)
Definition Table : Type := list (string * list Cell).

(** [pd.read_csv(csv_route, skiprows, skipfooter, engine='python')] and
    [pd.to_datetime(column, dayfirst)] are library calls: file access and
    parsing. *)
Variable read_csv : string → nat → nat → result Table.
Variable to_datetime : bool → list Cell → result (list Cell).

Definition column_names (df : Table) : list string := map fst df.

Definition fillna (df : Table) : Table :=
  map (λ c, (fst c, map (λ x, if isna x then zero else x) (snd c))) df.

(** The dict literal of line 28: later keys overwrite earlier equal keys. *)
Definition labels (date_label country_label confirmed_label deaths_label
                   recovered_label : string) : gmap string string :=
  <[recovered_label := "Recovered"]>
    (<[deaths_label := "Deaths"]>
       (<[confirmed_label := "Confirmed"]>
          (<[country_label := "Country"]>
             (<[date_label := "Date"]> ∅)))).

Definition rename_label (m : gmap string string) (n : string) : string :=
  default n (m !! n).

(** [df.rename(mapper, axis=1)]: a column whose name is a key of the mapper
    takes the mapped name, every other column keeps its name. *)
Definition rename (m : gmap string string) (df : Table) : Table :=
  map (λ c, (rename_label m (fst c), snd c)) df.

Definition named (n : string) (c : string * list Cell) : bool :=
  String.eqb (fst c) n.

(** [df[n] = col] for a column that exists. *)
Definition set_column (n : string) (col : list Cell) (df : Table) : Table :=
  map (λ c, if named n c then (fst c, col) else c) df.

(** [df['Date'] = pd.to_datetime(df['Date'], dayfirst=dayfirst)]: no column
    of that name is a KeyError; several give a frame, which [to_datetime]
    refuses with a ValueError. *)
Definition convert_dates (dayfirst : bool) (df : Table) : result Table :=
  match List.filter (named "Date") df with
  | [] => Raise KeyError
  | [c] => rbind (to_datetime dayfirst (snd c))
                 (λ col, Ok (set_column "Date" col df))
  | _ :: _ :: _ => Raise ValueError
  end.

Definition get_data (csv_route date_label country_label confirmed_label
                     deaths_label recovered_label : string)
           (drop_first drop_last : nat) (dayfirst : bool) : result Table :=
  rbind (read_csv csv_route drop_first drop_last) (λ df,
  let df := fillna df in
  let df := rename (labels date_label country_label confirmed_label
                           deaths_label recovered_label) df in
  convert_dates dayfirst df).

End Ingestion.

(** The five columns of a normalized table. *)
Definition normalized_columns : list string :=
  ["Date"; "Country"; "Confirmed"; "Deaths"; "Recovered"].

(** ** Reduction: [clean_data] *)

Local Open Scope Z_scope.

(** One record of the normalized table, in the five columns that [clean_data]
    reads.  [Date] is a timestamp; the counts are integers (case counts, far
    inside the range where pandas' int64 and float64 arithmetic is exact).
    A frame is the list of its records, and its count columns are numeric
    columns, as pandas types them when the source has a data row; a filter
    keeps that typing, also when it keeps no row.  The frame read from a
    source with a header and no data row, whose columns pandas leaves
    untyped, is not a frame of this model. *)
Record Row := {
  Date : Z;
  Country : string;
  Confirmed : Z;
  Deaths : Z;
  Recovered : Z
}.

Definition DataFrame : Type := list Row.

(** The frame that [groupby('Date').sum()] returns: the group keys as index
    and the numeric columns by name.  Columns are added by assignment. *)
Record Grouped := {
  g_index : list Z;
  g_columns : gmap string (list Z)
}.

(** A pandas Series: values labelled by their index, in order. *)
Definition Series : Type := list (Z * Z).

(** The store: frames are objects, named by their position; [ticks] counts
    the readings of the wall clock. *)
Record Heap := {
  frames : list DataFrame;
  groups : list Grouped;
  ticks : nat
}.

Definition ref : Type := nat.

Definition read_frame (r : ref) : M Heap DataFrame := λ h,
  match frames h !! r with
  | Some T => (Ok T, h)
  | None => (Raise BadRef, h)
  end.

Definition new_frame (T : DataFrame) : M Heap ref := λ h,
  (Ok (length (frames h)),
   {| frames := frames h ++ [T]; groups := groups h; ticks := ticks h |}).

Definition read_group (r : ref) : M Heap Grouped := λ h,
  match groups h !! r with
  | Some G => (Ok G, h)
  | None => (Raise BadRef, h)
  end.

Definition new_group (G : Grouped) : M Heap ref := λ h,
  (Ok (length (groups h)),
   {| frames := frames h; groups := groups h ++ [G]; ticks := ticks h |}).

(** [data[name]] on a grouped frame. *)
Definition group_getitem (r : ref) (name : string) : M Heap (list Z) :=
  G ← read_group r;
  match g_columns G !! name with
  | Some col => mret col
  | None => raise KeyError
  end.

Definition write_group (r : ref) (G : Grouped) : M Heap unit := λ h,
  (Ok tt,
   {| frames := frames h; groups := <[r := G]> (groups h); ticks := ticks h |}).

(** [data[name] = col]: the frame object itself is changed. *)
Definition group_setitem (r : ref) (name : string) (col : list Z) : M Heap unit :=
  G ← read_group r;
  write_group r {| g_index := g_index G;
                   g_columns := <[name := col]> (g_columns G) |}.

Definition group_index (r : ref) : M Heap (list Z) :=
  G ← read_group r; mret (g_index G).

Section Reduction.

(** [clock k] is what the [k]-th call of [pd.datetime.now()] returns. *)
Variable clock : nat → Z.

Definition now : M Heap Z := λ h,
  (Ok (clock (ticks h)),
   {| frames := frames h; groups := groups h; ticks := S (ticks h) |}).

(** Truth value of [country] (None or a str) and of [lastminute] (None or a
    sequence) in an [if]. *)
Definition truthy_str (o : option string) : bool :=
  match o with
  | Some s => negb (String.eqb s EmptyString)
  | None => false
  end.

Definition truthy_seq {A} (o : option (list A)) : bool :=
  match o with
  | Some (_ :: _) => true
  | _ => false
  end.

(** [data[data['Country'] == country]] *)
Definition where_country (country : string) (T : DataFrame) : DataFrame :=
  List.filter (λ r, String.eqb (Country r) country) T.

(** Group keys: the distinct dates, ascending. *)
Fixpoint insert_key (d : Z) (keys : list Z) : list Z :=
  match keys with
  | [] => [d]
  | k :: rest =>
      if d <? k then d :: keys
      else if d =? k then keys
      else k :: insert_key d rest
  end.

Definition group_keys (T : DataFrame) : list Z :=
  foldr insert_key [] (map Date T).

Definition on_date (d : Z) (T : DataFrame) : DataFrame :=
  List.filter (λ r, Date r =? d) T.

Definition total (col : Row → Z) (T : DataFrame) : Z :=
  foldr Z.add 0 (map col T).

Definition summed (col : Row → Z) (T : DataFrame) : list Z :=
  map (λ d, total col (on_date d T)) (group_keys T).

(** [data.groupby('Date').sum()]: one row per date, dates ascending, each
    numeric column summed over the rows of that date ([Country] is not
    numeric and takes no part in what follows).  The three count columns are
    numeric in every frame of the model, so the grouped frame has them, with
    no row when the frame has none (the empty selection of a country). *)
Definition groupby_Date_sum (T : DataFrame) : Grouped :=
  {| g_index := group_keys T;
     g_columns :=
       <["Recovered" := summed Recovered T]>
         (<["Deaths" := summed Deaths T]>
            (<["Confirmed" := summed Confirmed T]> ∅)) |}.

(** Column arithmetic of two columns of one frame. *)
Definition col_sub (a b : list Z) : list Z := zip_with Z.sub a b.

(** [data.loc[data[name] >= t, name]] on index [idx] and column [col]. *)
Definition loc_ge (t : Z) (idx col : list Z) : Series :=
  List.filter (λ e, t <=? snd e) (zip idx col).

(** [Series.drop_duplicates()]: a value equal to an earlier value of the
    series is dropped, with its label. *)
Fixpoint drop_duplicates_from (seen : list Z) (s : Series) : Series :=
  match s with
  | [] => []
  | e :: rest =>
      if existsb (Z.eqb (snd e)) seen then drop_duplicates_from seen rest
      else e :: drop_duplicates_from (snd e :: seen) rest
  end.

Definition drop_duplicates (s : Series) : Series := drop_duplicates_from [] s.

(** [s[k] = v]: the value at label [k] is replaced when the index has [k];
    otherwise a new entry is appended. *)
Definition series_setitem (k v : Z) (s : Series) : Series :=
  if existsb (λ e, fst e =? k) s
  then map (λ e, if fst e =? k then (fst e, v) else e) s
  else s ++ [(k, v)].

Definition filtered (r : ref) (name : string) (t : Z) : M Heap Series :=
  col ← group_getitem r name;
  idx ← group_index r;
  mret (drop_duplicates (loc_ge t idx col)).

Definition clean_data (data : ref) (country : option string)
           (threshold lastminute : option (list Z))
  : M Heap (Series * Series * Series) :=
  let threshold := match threshold with
                   | None => [0; 0; 0]
                   | Some t => t
                   end in
  data ← (if truthy_str country
          then T ← read_frame data;
               new_frame (where_country (default EmptyString country) T)
          else mret data);
  T ← read_frame data;
  data ← new_group (groupby_Date_sum T);
  c ← group_getitem data "Confirmed";
  d ← group_getitem data "Deaths";
  r ← group_getitem data "Recovered";
  group_setitem data "Active" (col_sub (col_sub c d) r);;
  t0 ← lift (py_index threshold 0);
  confirmed ← filtered data "Confirmed" t0;
  t1 ← lift (py_index threshold 1);
  deaths ← filtered data "Deaths" t1;
  t2 ← lift (py_index threshold 2);
  active ← filtered data "Active" t2;
  if truthy_seq lastminute
  then
    let lastminute := default [] lastminute in
    v ← lift (py_index lastminute 0);
    k ← now;
    let confirmed := series_setitem k v confirmed in
    v ← lift (py_index lastminute 1);
    k ← now;
    let deaths := series_setitem k v deaths in
    v0 ← lift (py_index lastminute 0);
    v1 ← lift (py_index lastminute 1);
    v2 ← lift (py_index lastminute 2);
    k ← now;
    let active := series_setitem k (v0 - v1 - v2) active in
    mret (confirmed, deaths, active)
  else mret (confirmed, deaths, active).

End Reduction.

(** ** Comparison: [compare] *)

Section Comparison.

Variable clock : nat → Z.
Variable Figure : Type.

(** The frames of the process and the image files written. *)
Record Desk := {
  heap : Heap;
  figures : list (string * Figure)
}.

(** Lines 85-113 build the figure: one confirmed line (values over [scale])
    and one deaths line per country, labelled by the country, then legends,
    grid, labels and layout.  [writable] is the file system's say. *)
Variable plot_lines : list (string * list Z * list Z) → Z → result Figure.
Variable writable : string → bool.

(** A computation on the frames, run on the frames of the desk. *)
Definition in_heap {A} (m : M Heap A) : M Desk A := λ w,
  (fst (m (heap w)), {| heap := snd (m (heap w)); figures := figures w |}).

(** [[clean_data(data, i, threshold) for i in countries]] *)
Fixpoint clean_each (data : ref) (countries : list string) (threshold : list Z)
  : M Heap (list (Series * Series * Series)) :=
  match countries with
  | [] => mret []
  | i :: rest =>
      v ← clean_data clock data (Some i) (Some threshold) None;
      vs ← clean_each data rest threshold;
      mret (v :: vs)
  end.

(** What the loop of lines 87-89 plots for country [i]: [values[i][0].values]
    and [values[i][1].values] under the label [countries[i]]. *)
Definition plotted (countries : list string)
           (values : list (Series * Series * Series))
  : list (string * list Z * list Z) :=
  zip_with (λ i v, (i, map snd (fst (fst v)), map snd (snd (fst v))))
           countries values.

Definition save_figure (filename : string) (fig : Figure) : M Desk unit := λ w,
  if writable filename
  then (Ok tt, {| heap := heap w; figures := (filename, fig) :: figures w |})
  else (Raise OSError, w).

Definition compare (data : ref) (countries : list string) (filename : string)
           (threshold : option (list Z)) (scale : Z)
  : M Desk (list (Series * Series * Series)) :=
  let threshold := match threshold with
                   | None => [100; 10; 100]
                   | Some t => t
                   end in
  values ← in_heap (clean_each data countries threshold);
  fig ← lift (plot_lines (plotted countries values) scale);
  save_figure filename fig;;
  mret values.

End Comparison.

Arguments heap {Figure} _.
Arguments figures {Figure} _.

(** ** Model fitting: [fit] *)

(** [str.lower()] and [str.replace(' ', '_')] on a title of ASCII characters,
    where [str.lower()] changes the letters A to Z only, one for one.  On
    other characters Python lower-cases by the Unicode tables, which this
    model does not hold: there [lower] leaves the bytes as they are. *)
Definition lower_char (c : ascii) : ascii :=
  let n := nat_of_ascii c in
  if ((65 <=? n) && (n <=? 90))%nat then ascii_of_nat (n + 32) else c.

Fixpoint lower (s : string) : string :=
  match s with
  | EmptyString => EmptyString
  | String c rest => String (lower_char c) (lower rest)
  end.

Fixpoint replace_char (a b : ascii) (s : string) : string :=
  match s with
  | EmptyString => EmptyString
  | String c rest => String (if Ascii.eqb c a then b else c) (replace_char a b rest)
  end.

(** [np.arange(a, b)] and [range(b)] on integers. *)
Definition arange (a b : Z) : list Z :=
  map (λ i, a + Z.of_nat i) (seq 0 (Z.to_nat (b - a))).

(** The elements at positions 0, k, 2k, ... for a step [k = S k']: [skip]
    counts the elements still to pass over. *)
Fixpoint every_nth_from {A} (k' skip : nat) (l : list A) : list A :=
  match l with
  | [] => []
  | x :: rest =>
      match skip with
      | O => x :: every_nth_from k' k' rest
      | S n => every_nth_from k' n rest
      end
  end.

Definition every_nth {A} (k' : nat) (l : list A) : list A :=
  every_nth_from k' 0 l.

(** [l[::k]]: a step of 0 is a ValueError, a negative step walks from the
    last element backwards. *)
Definition slice_step {A} (k : Z) (l : list A) : result (list A) :=
  match k with
  | Z0 => Raise ValueError
  | Zpos p => Ok (every_nth (Nat.pred (Pos.to_nat p)) l)
  | Zneg p => Ok (every_nth (Nat.pred (Pos.to_nat p)) (rev l))
  end.

Section Fitting.

(** Floats are compared, never computed with, in what the source decides;
    the model callable and the matplotlib figure are opaque values. *)
Variable float : Type.
Variable float_lt : float → float → bool.
Variable Model : Type.
Variable Figure : Type.

(** What the process leaves behind: the image files written and the number
    of runs of the numerical solver. *)
Record Disk := {
  images : list (string * Figure);
  solver_runs : nat
}.

(** The bounded least-squares solver of scipy (trust-region reflective,
    floating point): its answer, or the exception it ends with. *)
Variable solve : Model → list Z → list Z → option (list float) →
                 list float → list float → result (list float).

(** Lines 146-160 draw the data and [model(t, *sol)] (which may raise);
    [day_label] formats the date [i] days after the first one; [decorate]
    sets ticks, labels and title; [writable] is the file system's say. *)
Variable draw : Model → list Z → Series → list Z → list float → Z → Z → Z →
                result Figure.
Variable day_label : Z → Z → string.
Variable decorate : Figure → list Z → list string → string → Figure.
Variable writable : string → bool.

Definition exceeds (lbounds gbounds : list float) : bool :=
  existsb (λ b, float_lt (snd b) (fst b)) (zip lbounds gbounds).

Definition outside (guess : option (list float)) (lbounds gbounds : list float)
  : bool :=
  match guess with
  | None => false
  | Some g =>
      existsb (λ e, float_lt (fst e) (fst (snd e))
                    || float_lt (snd (snd e)) (fst e))
              (zip g (zip lbounds gbounds))
  end.

Definition run_solver (model : Model) (xdata ydata : list Z)
           (p0 : option (list float)) (lbounds gbounds : list float)
  : M Disk (list float) := λ w,
  (solve model xdata ydata p0 lbounds gbounds,
   {| images := images w; solver_runs := S (solver_runs w) |}).

(** Modelled from the spec: [scipy.optimize.curve_fit] is a library function
    and not part of [src/]; what is missing is its validation of [p0] and
    [bounds].  As the spec states the failure of fitting: a ValueError when
    a lower bound is above its upper bound or the guess lies outside the
    bounds, raised before the solver runs.  Everything else the library
    does is the parameter [solve]. *)
Definition curve_fit (model : Model) (xdata ydata : list Z)
           (p0 : option (list float)) (bounds : list float * list float)
  : M Disk (list float) :=
  if exceeds (fst bounds) (snd bounds) || outside p0 (fst bounds) (snd bounds)
  then raise ValueError
  else run_solver model xdata ydata p0 (fst bounds) (snd bounds).

Definition savefig (route : string) (fig : Figure) : M Disk unit := λ w,
  if writable route
  then (Ok tt, {| images := (route, fig) :: images w;
                  solver_runs := solver_runs w |})
  else (Raise OSError, w).

Definition fit (values : Series) (model : Model) (lbounds gbounds : list float)
           (guess : option (list float)) (route title : string)
           (tmin tmax scale days_range : Z) : M Disk (list float) :=
  let route := (route +:+ replace_char " " "_" (lower title) +:+ ".png")%string in
  let days := arange 0 (Z.of_nat (length values)) in
  sol ← curve_fit model days (map snd values) guess (lbounds, gbounds);
  let days := arange 0 (Z.of_nat (length values)) in
  let t := arange tmin tmax in
  fig ← lift (draw model days values t sol scale tmin tmax);
  initial_date ← lift (py_index (map fst values) 0);
  let days_ticks := arange 0 tmax in
  let days_labels := map (day_label initial_date) days_ticks in
  ticks ← lift (slice_step days_range days_ticks);
  ticklabels ← lift (slice_step days_range days_labels);
  let fig := decorate fig ticks ticklabels title in
  savefig route fig;;
  mret sol.

End Fitting.

Arguments images {Figure} _.
Arguments solver_runs {Figure} _.

(** ** Notions used to state the properties *)

(** The thresholds in force: lines 46-47. *)
Definition thresholds (threshold : option (list Z)) : list Z :=
  match threshold with
  | None => [0; 0; 0]
  | Some t => t
  end.

(** The rows that [clean_data] keeps before grouping. *)
Definition selected (country : option string) (T : DataFrame) : DataFrame :=
  if truthy_str country then where_country (default EmptyString country) T else T.

(** The [Active] column of line 54, from the summed columns. *)
Definition active_column (T : DataFrame) : list Z :=
  col_sub (col_sub (summed Confirmed T) (summed Deaths T)) (summed Recovered T).

(** The grouped frame of [T] once [Active] is assigned. *)
Definition with_Active (T : DataFrame) : Grouped :=
  {| g_index := group_keys T;
     g_columns := <["Active"%string := active_column T]>
                    (g_columns (groupby_Date_sum T)) |}.

(** The store after a call on table [T] that read the clock [n] times. *)
Definition after_call (country : option string) (T : DataFrame) (n : nat)
           (h : Heap) : Heap :=
  {| frames := if truthy_str country
               then frames h ++ [selected country T] else frames h;
     groups := groups h ++ [with_Active (selected country T)];
     ticks := (n + ticks h)%nat |}.

(** Entry [e] is where its value occurs first in the series [full]. *)
Definition first_occurrence (e : Z * Z) (full : Series) : Prop :=
  ∃ before after, full = before ++ e :: after ∧ snd e ∉ map snd before.

(** [s] is the series [full] filtered by the threshold [t] and by duplicates:
    only values at or above [t], no value twice, exactly the first
    occurrences, in the order of [full], dates ascending. *)
Definition kept (t : Z) (full s : Series) : Prop :=
  (∀ e, e ∈ s → t ≤ snd e) ∧
  NoDup (map snd s) ∧
  (∀ e, e ∈ s ↔ t ≤ snd e ∧ first_occurrence e full) ∧
  sublist s full ∧
  StronglySorted Z.lt (map fst s).

(** The value [v] is entered into the series [s] under the label [k], giving
    [s']: [s'] has the entry.  When [s] had no entry under [k], [s'] is [s]
    with the entry appended as the last one.  When [s] had one, nothing is
    appended: [s'] has the labels of [s], in place, with the value [v] under
    [k] and the value of [s] under every other label. *)
Definition entered (k v : Z) (s s' : Series) : Prop :=
  (k, v) ∈ s' ∧
  (k ∉ map fst s → s' = s ++ [(k, v)]) ∧
  (k ∈ map fst s →
   length s' = length s ∧
   ∀ (i : nat) (d x : Z),
     s !! i = Some (d, x) → s' !! i = Some (d, if d =? k then v else x)).

(** [G] holds, per date, the sums of the rows of [T] that [use] accepts:
    its index lists the dates of those rows once each, ascending, and each
    numeric column has at a date the total of that column over them. *)
Definition per_date_sums (use : Row → bool) (T : DataFrame) (G : Grouped) : Prop :=
  StronglySorted Z.lt (g_index G) ∧
  (∀ d, d ∈ g_index G ↔ ∃ r, r ∈ T ∧ use r = true ∧ Date r = d) ∧
  ∀ name col,
    (name, col) ∈ [("Confirmed"%string, Confirmed); ("Deaths"%string, Deaths);
                   ("Recovered"%string, Recovered)] →
    ∃ vals, g_columns G !! name = Some vals ∧
            length vals = length (g_index G) ∧
            ∀ i d, g_index G !! i = Some d →
                   vals !! i = Some (total col (List.filter (λ r, use r && (Date r =? d)) T)).

(** Which rows a call with [country] uses. *)
Definition uses (country : option string) (r : Row) : bool :=
  match country with
  | None => true
  | Some c => String.eqb c EmptyString || String.eqb (Country r) c
  end.

(** Some bound is inconsistent, or the guess leaves the bounds. *)
Definition infeasible {float} (float_lt : float → float → bool)
           (lbounds gbounds : list float) (guess : option (list float)) : Prop :=
  (∃ i l u, lbounds !! i = Some l ∧ gbounds !! i = Some u ∧ float_lt u l = true) ∨
  (∃ g i x l u, guess = Some g ∧ g !! i = Some x ∧
                lbounds !! i = Some l ∧ gbounds !! i = Some u ∧
                (float_lt x l = true ∨ float_lt u x = true)).

(** ** Sample data *)

Inductive CsvCell :=
| Blank
| Number (z : Z)
| Text (s : string).

Definition csv_isna (c : CsvCell) : bool :=
  match c with
  | Blank => true
  | _ => false
  end.

(** A source with the five expected columns and a sixth one. *)
Definition csv_provinces : @Table CsvCell :=
  [("Date"%string, [Number 1; Number 2]);
   ("Country"%string, [Text "A"; Text "A"]);
   ("Province"%string, [Blank; Blank]);
   ("Confirmed"%string, [Number 10; Number 20]);
   ("Deaths"%string, [Number 0; Blank]);
   ("Recovered"%string, [Number 0; Number 1])].

Definition read_provinces (route : string) (drop_first drop_last : nat)
  : result (@Table CsvCell) := Ok csv_provinces.

Definition parsed_dates (dayfirst : bool) (col : list CsvCell)
  : result (list CsvCell) := Ok col.

Definition row (d : Z) (c : string) (x y z : Z) : Row :=
  {| Date := d; Country := c; Confirmed := x; Deaths := y; Recovered := z |}.

(** Two regions over the same three dates. *)
Definition two_regions : DataFrame :=
  [row 1 "A" 10 0 0; row 1 "B" 5 0 0;
   row 2 "A" 20 1 0; row 2 "B" 15 0 1;
   row 3 "A" 30 2 3; row 3 "B" 25 1 1].

(** A region whose label is the empty string, next to a named one. *)
Definition unnamed_region : DataFrame :=
  [row 1 EmptyString 5 0 0; row 1 "A" 10 0 0;
   row 2 EmptyString 15 0 1; row 2 "A" 20 1 0].

(** One region with repeated confirmed counts. *)
Definition repeated_counts : DataFrame :=
  [row 1 "A" 10 0 0; row 2 "A" 10 0 0; row 3 "A" 20 1 0;
   row 4 "A" 30 1 0; row 5 "A" 30 1 1].

(** One region where deaths and recovered exceed the confirmed counts on the
    first two dates. *)
Definition negative_active : DataFrame :=
  [row 1 "A" 1 1 2; row 2 "A" 2 1 2; row 3 "A" 5 1 2].

(** A store that holds one table, at reference 0. *)
Definition store_of (T : DataFrame) : Heap :=
  {| frames := [T]; groups := []; ticks := 0 |}.

(** A clock that stands at [t], and one that runs from [t]. *)
Definition stopped_at (t : Z) : nat → Z := λ _, t.
Definition running_from (t : Z) : nat → Z := λ k, t + Z.of_nat k.

(** Fitting over integers as floats, with a solver that returns its guess. *)
Definition guess_back (model : unit) (xdata ydata : list Z) (p0 : option (list Z))
           (lbounds gbounds : list Z) : result (list Z) :=
  Ok (default lbounds p0).

Definition no_drawing (model : unit) (days : list Z) (values : Series)
           (t : list Z) (sol : list Z) (scale tmin tmax : Z) : result unit :=
  Ok tt.

Definition fixed_label (initial_date i : Z) : string := "01/01".
Definition plain_decorate (fig : unit) (ticks : list Z) (labels : list string)
           (title : string) : unit := fig.
Definition any_route (route : string) : bool := true.
Definition empty_disk : Disk unit := {| images := []; solver_runs := 0 |}.

(** ** Further notions and sample data *)

(** The three filtered series of the rows of [T] in use for [country], under
    the thresholds [tc], [td], [ta]. *)
Definition series_of (country : option string) (T : DataFrame) (tc td ta : Z)
  : Series * Series * Series :=
  (drop_duplicates (loc_ge tc (group_keys (selected country T))
                           (summed Confirmed (selected country T))),
   drop_duplicates (loc_ge td (group_keys (selected country T))
                           (summed Deaths (selected country T))),
   drop_duplicates (loc_ge ta (group_keys (selected country T))
                           (active_column (selected country T)))).

(** The per-date total of a column over the rows in use. *)
Definition total_on (col : Row → Z) (country : option string) (d : Z)
           (T : DataFrame) : Z :=
  total col (List.filter (λ r, uses country r && (Date r =? d)) T).

(** Every character of [s] is an ASCII character (below 128). *)
Fixpoint ascii_only (s : string) : bool :=
  match s with
  | EmptyString => true
  | String c rest => (nat_of_ascii c <? 128)%nat && ascii_only rest
  end.

(** No character of [s] is a space or an upper-case ASCII letter. *)
Fixpoint slug_like (s : string) : Prop :=
  match s with
  | EmptyString => True
  | String c rest =>
      c ≠ " "%char ∧ ¬ (65 ≤ nat_of_ascii c ≤ 90)%nat ∧ slug_like rest
  end.

(** A source whose date column is called Day. *)
Definition csv_days : @Table CsvCell :=
  [("Day"%string, [Text "2020-03-01"; Text "2020-03-02"]);
   ("Country"%string, [Text "A"; Text "A"]);
   ("Confirmed"%string, [Number 10; Blank]);
   ("Deaths"%string, [Blank; Number 1]);
   ("Recovered"%string, [Number 0; Number 1])].

Definition read_days (route : string) (drop_first drop_last : nat)
  : result (@Table CsvCell) := Ok csv_days.

(** A date parser that numbers the days of March 2020 and refuses the rest. *)
Definition march_day (c : CsvCell) : result CsvCell :=
  match c with
  | Text "2020-03-01" => Ok (Number 1)
  | Text "2020-03-02" => Ok (Number 2)
  | _ => Raise ValueError
  end.

Fixpoint march_days (dayfirst : bool) (col : list CsvCell)
  : result (list CsvCell) :=
  match col with
  | [] => Ok []
  | c :: rest =>
      rbind (march_day c) (λ d,
      rbind (march_days dayfirst rest) (λ ds, Ok (d :: ds)))
  end.

#[global] Instance Row_eq_dec : EqDecision Row.
Proof. solve_decision. Defined.

(** The same six rows as [two_regions], region by region. *)
Definition two_regions_by_region : DataFrame :=
  [row 3 "A" 30 2 3; row 2 "A" 20 1 0; row 1 "A" 10 0 0;
   row 1 "B" 5 0 0; row 2 "B" 15 0 1; row 3 "B" 25 1 1].

(** A desk that holds one table and no image; a figure that is the list of
    its lines. *)
Definition desk_of (T : DataFrame) : Desk (list (string * list Z * list Z)) :=
  {| heap := store_of T; figures := [] |}.

Definition lines_as_figure (lines : list (string * list Z * list Z)) (scale : Z)
  : result (list (string * list Z * list Z)) := Ok lines.

(** * Properties *)

(** ** Ingestion *)

Section IngestionFacts.

Context {Cell : Type}.
Variable isna : Cell → bool.
Variable zero : Cell.
Variable read_csv : string → nat → nat → result (@Table Cell).
Variable to_datetime : bool → list Cell → result (list Cell).

Lemma column_names_fillna (df : @Table Cell) :
  column_names (fillna isna zero df) = column_names df.
Proof.
  unfold column_names, fillna. rewrite map_map. reflexivity.
Qed.

Lemma column_names_rename m (df : @Table Cell) :
  column_names (rename m df) = map (rename_label m) (column_names df).
Proof.
  unfold column_names, rename. rewrite !map_map. reflexivity.
Qed.

Lemma column_names_set_column n col (df : @Table Cell) :
  column_names (set_column n col df) = column_names df.
Proof.
  unfold column_names, set_column. rewrite map_map.
  apply map_ext. intros c. destruct (named n c); reflexivity.
Qed.

Lemma convert_dates_columns dayfirst (df df' : @Table Cell) :
  convert_dates to_datetime dayfirst df = Ok df' →
  column_names df' = column_names df.
Proof.
  unfold convert_dates.
  destruct (List.filter (named "Date") df) as [|c [|c' rest]]; try discriminate.
  destruct (to_datetime dayfirst (snd c)) as [col|e]; simpl; try discriminate.
  intros [= <-]. apply column_names_set_column.
Qed.

End IngestionFacts.

(** C6, as the code has it: [get_data] selects no columns.  The table it
    returns has the columns of the source, in the source's order; a source
    column that the mapping names carries the corresponding name among Date,
    Country, Confirmed, Deaths, Recovered, and every other source column is
    kept under its own name. *)
Theorem get_data_keeps_source_columns
        {Cell : Type} (isna : Cell → bool) (zero : Cell)
        (read_csv : string → nat → nat → result (@Table Cell))
        (to_datetime : bool → list Cell → result (list Cell))
        (csv_route date_label country_label confirmed_label deaths_label
         recovered_label : string)
        (drop_first drop_last : nat) (dayfirst : bool) (df : @Table Cell) :
  get_data isna zero read_csv to_datetime csv_route date_label country_label
           confirmed_label deaths_label recovered_label
           drop_first drop_last dayfirst = Ok df →
  ∃ source,
    read_csv csv_route drop_first drop_last = Ok source ∧
    column_names df =
      map (rename_label (labels date_label country_label confirmed_label
                                deaths_label recovered_label))
          (column_names source) ∧
    length df = length source.
Proof.
  unfold get_data. intros H.
  destruct (read_csv csv_route drop_first drop_last) as [source|e];
    simpl in H; [|discriminate].
  exists source. split; [reflexivity|].
  apply convert_dates_columns in H.
  rewrite column_names_rename, column_names_fillna in H.
  split; [exact H|].
  apply (f_equal (@length string)) in H.
  unfold column_names in H. rewrite !length_map in H. exact H.
Qed.

Lemma get_data_keeps_source_columns_witness :
  ∃ source,
    read_provinces "covid.csv" 0 0 = Ok source ∧
    column_names (set_column "Date" [Number 1; Number 2]
                    (rename (labels "Date" "Country" "Confirmed" "Deaths" "Recovered")
                       (fillna csv_isna (Number 0) csv_provinces))) =
      map (rename_label (labels "Date" "Country" "Confirmed" "Deaths" "Recovered"))
          (column_names source) ∧
    length (set_column "Date" [Number 1; Number 2]
              (rename (labels "Date" "Country" "Confirmed" "Deaths" "Recovered")
                 (fillna csv_isna (Number 0) csv_provinces))) = length source.
Proof.
  apply (get_data_keeps_source_columns csv_isna (Number 0) read_provinces
           parsed_dates "covid.csv" "Date" "Country" "Confirmed" "Deaths"
           "Recovered" 0 0 false).
  vm_compute. reflexivity.
Defined.

(** C6 as stated fails: a source with a sixth column, Province, gives a
    table with six columns, not the five normalized ones. *)
Lemma get_data_sixth_column :
  ∃ df,
    get_data csv_isna (Number 0) read_provinces parsed_dates "covid.csv"
             "Date" "Country" "Confirmed" "Deaths" "Recovered" 0 0 false = Ok df ∧
    column_names df =
      ["Date"; "Country"; "Province"; "Confirmed"; "Deaths"; "Recovered"]%string ∧
    column_names df ≠ normalized_columns.
Proof.
  eexists. split; [vm_compute; reflexivity|].
  split; [reflexivity|]. discriminate.
Qed.

(** ** Reduction: facts on the frame operations *)

(** *** Group keys *)

Lemma elem_of_insert_key d x keys : x ∈ insert_key d keys ↔ x = d ∨ x ∈ keys.
Proof.
  induction keys as [|k rest IH]; simpl.
  - rewrite list_elem_of_singleton, elem_of_nil. tauto.
  - destruct (Z.ltb_spec d k) as [Hlt|Hge].
    + rewrite elem_of_cons. tauto.
    + destruct (Z.eqb_spec d k) as [->|Hne].
      * rewrite elem_of_cons. tauto.
      * rewrite !elem_of_cons, IH. tauto.
Qed.

Lemma insert_key_sorted d keys :
  StronglySorted Z.lt keys → StronglySorted Z.lt (insert_key d keys).
Proof.
  induction 1 as [|k rest Hs IH Hall]; simpl.
  - repeat constructor.
  - destruct (Z.ltb_spec d k) as [Hlt|Hge].
    + constructor; [constructor; assumption|].
      constructor; [assumption|].
      eapply Forall_impl; [exact Hall|]. intros y Hy. simpl in Hy. lia.
    + destruct (Z.eqb_spec d k) as [->|Hne]; [constructor; assumption|].
      constructor; [assumption|].
      apply Forall_forall. intros y Hy.
      apply elem_of_insert_key in Hy as [->|Hy]; [lia|].
      rewrite Forall_forall in Hall. apply Hall, Hy.
Qed.

Lemma group_keys_sorted T : StronglySorted Z.lt (group_keys T).
Proof.
  unfold group_keys. induction T as [|r T IH]; simpl.
  - constructor.
  - apply insert_key_sorted, IH.
Qed.

Lemma elem_of_group_keys d T : d ∈ group_keys T ↔ ∃ r, r ∈ T ∧ Date r = d.
Proof.
  unfold group_keys. induction T as [|r T IH]; simpl.
  - split; [intros H; inversion H|intros (r & H & _); inversion H].
  - rewrite elem_of_insert_key, IH. split.
    + intros [->|(r' & Hr & Hd)]; [exists r|exists r']; rewrite elem_of_cons; auto.
    + intros (r' & Hr & Hd). apply elem_of_cons in Hr as [->|Hr]; eauto.
Qed.

Lemma insert_key_least d keys :
  Forall (λ k, d ≤ k) keys →
  insert_key d keys = d :: keys ∨ insert_key d keys = keys.
Proof.
  intros Hall. destruct keys as [|k rest]; simpl; [now left|].
  apply Forall_cons in Hall as [Hk _].
  destruct (Z.ltb_spec d k); [now left|].
  destruct (Z.eqb_spec d k); [now right|lia].
Qed.

(** On a table whose rows are in ascending order of date, the group keys are
    the dates in the order of the table, each once. *)
Lemma group_keys_table_order T :
  StronglySorted Z.le (map Date T) → sublist (group_keys T) (map Date T).
Proof.
  unfold group_keys. induction T as [|r T IH]; simpl; intros Hs.
  - constructor.
  - apply StronglySorted_inv in Hs as [Hs Hall].
    destruct (insert_key_least (Date r) (foldr insert_key [] (map Date T)))
      as [-> | ->].
    + apply Forall_forall. intros k Hk.
      apply (elem_of_group_keys k T) in Hk as (r' & Hr' & <-).
      rewrite Forall_forall in Hall. apply Hall.
      apply list_elem_of_fmap. eauto.
    + apply sublist_skip, IH, Hs.
    + apply sublist_cons, IH, Hs.
Qed.

Lemma length_summed col T : length (summed col T) = length (group_keys T).
Proof. unfold summed. apply length_map. Qed.

Lemma lookup_summed col T i d :
  group_keys T !! i = Some d → summed col T !! i = Some (total col (on_date d T)).
Proof. intros H. unfold summed. rewrite list_lookup_fmap, H. reflexivity. Qed.

Lemma elem_of_where_country c r T : r ∈ where_country c T ↔ r ∈ T ∧ Country r = c.
Proof.
  unfold where_country. rewrite !list_elem_of_In, filter_In.
  rewrite String.eqb_eq. tauto.
Qed.

Lemma filter_filter {A} (p q : A → bool) l :
  List.filter p (List.filter q l) = List.filter (λ x, q x && p x) l.
Proof.
  induction l as [|x l IH]; simpl; [reflexivity|].
  destruct (q x); simpl; [destruct (p x)|]; rewrite IH; reflexivity.
Qed.

Lemma on_date_where_country d c T :
  on_date d (where_country c T) =
  List.filter (λ r, String.eqb (Country r) c && (Date r =? d)) T.
Proof. apply filter_filter. Qed.

(** *** Thresholds and duplicates *)

Lemma seen_elem_of v seen : existsb (Z.eqb v) seen = true ↔ v ∈ seen.
Proof.
  rewrite existsb_exists. split.
  - intros (x & Hx & E). apply Z.eqb_eq in E as ->. now apply list_elem_of_In.
  - intros H. exists v. split; [now apply list_elem_of_In|apply Z.eqb_refl].
Qed.

Lemma drop_duplicates_from_sublist seen s :
  sublist (drop_duplicates_from seen s) s.
Proof.
  revert seen. induction s as [|x rest IH]; intros seen; simpl.
  - constructor.
  - destruct (existsb (Z.eqb (snd x)) seen).
    + apply sublist_cons, IH.
    + apply sublist_skip, IH.
Qed.

Lemma drop_duplicates_from_unseen seen s e :
  e ∈ drop_duplicates_from seen s → snd e ∉ seen.
Proof.
  revert seen. induction s as [|x rest IH]; intros seen; simpl.
  - intros H. inversion H.
  - destruct (existsb (Z.eqb (snd x)) seen) eqn:E.
    + apply IH.
    + rewrite elem_of_cons. intros [->|H].
      * intros Hin. apply seen_elem_of in Hin. congruence.
      * apply IH in H. rewrite not_elem_of_cons in H. tauto.
Qed.

Lemma drop_duplicates_from_NoDup seen s :
  NoDup (map snd (drop_duplicates_from seen s)).
Proof.
  revert seen. induction s as [|x rest IH]; intros seen; simpl.
  - constructor.
  - destruct (existsb (Z.eqb (snd x)) seen); [apply IH|].
    simpl. apply NoDup_cons. split; [|apply IH].
    intros Hin. apply list_elem_of_fmap in Hin as (e & E & He).
    apply drop_duplicates_from_unseen in He.
    rewrite not_elem_of_cons in He. destruct He as [He _]. congruence.
Qed.

(** What survives the threshold and the duplicate filter is exactly the
    first occurrence of each value at or above the threshold. *)
Lemma filtered_first_occurrence t seen full e :
  e ∈ drop_duplicates_from seen (List.filter (λ e, t <=? snd e) full) ↔
  t ≤ snd e ∧
  ∃ before after, full = before ++ e :: after ∧
                  (snd e ∉ seen) ∧ (snd e ∉ map snd before).
Proof.
  revert seen. induction full as [|x rest IH]; intros seen; simpl.
  - split; [intros H; inversion H|].
    intros (_ & b & a & E & _). destruct b; discriminate.
  - destruct (Z.leb_spec t (snd x)) as [Hx|Hx]; simpl.
    + destruct (existsb (Z.eqb (snd x)) seen) eqn:Es.
      * apply seen_elem_of in Es. rewrite IH. split.
        -- intros (Ht & b & a & -> & Hs & Hb). split; [exact Ht|].
           exists (x :: b), a. split; [reflexivity|]. split; [exact Hs|].
           simpl. rewrite not_elem_of_cons. split; [congruence|exact Hb].
        -- intros (Ht & b & a & E & Hs & Hb). split; [exact Ht|].
           destruct b as [|y b]; simpl in E; injection E as -> ->.
           ++ contradiction.
           ++ exists b, a. split; [reflexivity|]. split; [exact Hs|].
              simpl in Hb. rewrite not_elem_of_cons in Hb. tauto.
      * assert (Hns : snd x ∉ seen).
        { intros H. apply seen_elem_of in H. congruence. }
        rewrite elem_of_cons, IH. split.
        -- intros [->|(Ht & b & a & -> & Hs & Hb)].
           ++ split; [exact Hx|]. exists [], rest.
              split; [reflexivity|]. split; [exact Hns|]. simpl. apply not_elem_of_nil.
           ++ split; [exact Ht|]. rewrite not_elem_of_cons in Hs.
              exists (x :: b), a. split; [reflexivity|]. split; [tauto|].
              simpl. rewrite not_elem_of_cons. tauto.
        -- intros (Ht & b & a & E & Hs & Hb).
           destruct b as [|y b]; simpl in E; injection E as -> ->.
           ++ now left.
           ++ right. split; [exact Ht|]. simpl in Hb.
              rewrite not_elem_of_cons in Hb.
              exists b, a. split; [reflexivity|].
              rewrite not_elem_of_cons. tauto.
    + rewrite IH. split.
      * intros (Ht & b & a & -> & Hs & Hb). split; [exact Ht|].
        exists (x :: b), a. split; [reflexivity|]. split; [exact Hs|].
        simpl. rewrite not_elem_of_cons. split; [lia|exact Hb].
      * intros (Ht & b & a & E & Hs & Hb). split; [exact Ht|].
        destruct b as [|y b]; simpl in E; injection E as -> ->.
        -- lia.
        -- exists b, a. split; [reflexivity|]. split; [exact Hs|].
           simpl in Hb. rewrite not_elem_of_cons in Hb. tauto.
Qed.

Lemma sublist_List_filter {A} (p : A → bool) l : sublist (List.filter p l) l.
Proof.
  induction l as [|x l IH]; simpl; [constructor|].
  destruct (p x); [apply sublist_skip|apply sublist_cons]; exact IH.
Qed.

Lemma StronglySorted_sublist {A} (R : relation A) l1 l2 :
  sublist l1 l2 → StronglySorted R l2 → StronglySorted R l1.
Proof.
  induction 1 as [|x l1 l2 Hsub IH|x l1 l2 Hsub IH]; intros Hs.
  - constructor.
  - apply StronglySorted_inv in Hs as [Hs Hall]. constructor; [apply IH, Hs|].
    rewrite Forall_forall in *. intros y Hy. apply Hall.
    eapply sublist_subseteq; eassumption.
  - apply StronglySorted_inv in Hs as [Hs _]. apply IH, Hs.
Qed.

Lemma kept_drop_duplicates t idx col :
  StronglySorted Z.lt idx → (length idx ≤ length col)%nat →
  kept t (zip idx col) (drop_duplicates (loc_ge t idx col)).
Proof.
  intros Hs Hlen. unfold drop_duplicates, loc_ge.
  assert (Hsub : sublist (drop_duplicates_from []
                            (List.filter (λ e, t <=? snd e) (zip idx col)))
                         (zip idx col)).
  { etrans; [apply drop_duplicates_from_sublist|apply sublist_List_filter]. }
  repeat split.
  - intros e He. apply filtered_first_occurrence in He. tauto.
  - apply drop_duplicates_from_NoDup.
  - apply filtered_first_occurrence in H. tauto.
  - apply filtered_first_occurrence in H as (_ & b & a & E & _ & Hb).
    exists b, a. tauto.
  - intros (Ht & b & a & E & Hb). apply filtered_first_occurrence.
    split; [exact Ht|]. exists b, a. split; [exact E|].
    split; [apply not_elem_of_nil|exact Hb].
  - exact Hsub.
  - eapply StronglySorted_sublist; [apply fmap_sublist, Hsub|].
    change (map fst (zip idx col)) with ((zip idx col).*1).
    rewrite fst_zip by exact Hlen. exact Hs.
Qed.

(** *** Running [clean_data] *)

Ltac run_store :=
  repeat first
    [ progress (cbn [frames groups ticks fst snd])
    | rewrite list_lookup_middle by reflexivity
    | rewrite insert_app_r_alt by reflexivity
    | rewrite Nat.sub_diag
    | rewrite lookup_insert_eq
    | rewrite lookup_insert_ne by discriminate
    | progress (cbn [list_insert insert g_columns g_index groupby_Date_sum
                     py_index lookup list_lookup default truthy_seq]) ].

Ltac unfold_clean_data :=
  unfold clean_data, filtered, group_getitem, group_setitem, group_index, now;
  unfold mbind, M_bind, mret, M_ret, read_frame, new_frame, new_group,
    read_group, write_group, lift, raise.

Lemma clean_data_plain clock a country T threshold t0 t1 t2 rest lastminute h :
  frames h !! a = Some T →
  thresholds threshold = t0 :: t1 :: t2 :: rest →
  truthy_seq lastminute = false →
  clean_data clock a country threshold lastminute h =
  (Ok (drop_duplicates (loc_ge t0 (group_keys (selected country T))
                               (summed Confirmed (selected country T))),
       drop_duplicates (loc_ge t1 (group_keys (selected country T))
                               (summed Deaths (selected country T))),
       drop_duplicates (loc_ge t2 (group_keys (selected country T))
                               (active_column (selected country T)))),
   after_call country T 0 h).
Proof.
  intros Ha Ht Hl. unfold_clean_data. fold (thresholds threshold).
  rewrite Ht, Hl. unfold after_call, selected.
  destruct (truthy_str country); rewrite Ha; run_store; reflexivity.
Qed.

Lemma clean_data_lastminute clock a country T threshold t0 t1 t2 rest
      v0 v1 v2 more h :
  frames h !! a = Some T →
  thresholds threshold = t0 :: t1 :: t2 :: rest →
  clean_data clock a country threshold (Some (v0 :: v1 :: v2 :: more)) h =
  (Ok (series_setitem (clock (ticks h)) v0
         (drop_duplicates (loc_ge t0 (group_keys (selected country T))
                                  (summed Confirmed (selected country T)))),
       series_setitem (clock (S (ticks h))) v1
         (drop_duplicates (loc_ge t1 (group_keys (selected country T))
                                  (summed Deaths (selected country T)))),
       series_setitem (clock (S (S (ticks h)))) (v0 - v1 - v2)
         (drop_duplicates (loc_ge t2 (group_keys (selected country T))
                                  (active_column (selected country T))))),
   after_call country T 3 h).
Proof.
  intros Ha Ht. unfold_clean_data. fold (thresholds threshold).
  rewrite Ht. unfold after_call, selected.
  destruct (truthy_str country); rewrite Ha; run_store; reflexivity.
Qed.

(** Whatever the thresholds and the manual point, and also when the call
    raises, the store ends as [after_call] says, for some number of clock
    readings. *)
Lemma clean_data_store clock a country T threshold lastminute h :
  frames h !! a = Some T →
  ∃ n, snd (clean_data clock a country threshold lastminute h) =
       after_call country T n h.
Proof.
  intros Ha. unfold_clean_data. fold (thresholds threshold).
  unfold after_call, selected.
  destruct (thresholds threshold) as [|t0 [|t1 [|t2 rest]]];
    destruct lastminute as [[|v0 [|v1 [|v2 more]]]|];
    destruct (truthy_str country); rewrite Ha; run_store;
    first [ by exists 0%nat | by exists 1%nat | by exists 2%nat | by exists 3%nat ].
Qed.

Lemma clean_data_Ok_inv clock a country threshold h res :
  fst (clean_data clock a country threshold None h) = Ok res →
  ∃ T t0 t1 t2 rest,
    frames h !! a = Some T ∧ thresholds threshold = t0 :: t1 :: t2 :: rest.
Proof.
  unfold_clean_data. fold (thresholds threshold). intros H.
  destruct (frames h !! a) as [T|] eqn:Ha.
  - destruct (thresholds threshold) as [|t0 [|t1 [|t2 rest]]];
      [exfalso; destruct (truthy_str country); rewrite Ha in H;
       revert H; run_store; discriminate ..|].
    by exists T, t0, t1, t2, rest.
  - exfalso. destruct (truthy_str country); rewrite Ha in H;
      revert H; run_store; discriminate.
Qed.

Lemma selected_uses country T : selected country T = List.filter (uses country) T.
Proof.
  unfold selected, uses, truthy_str, where_country.
  destruct country as [c|]; simpl.
  - destruct (String.eqb c EmptyString) eqn:E; simpl; [|reflexivity].
    induction T as [|r T IH]; simpl; congruence.
  - induction T as [|r T IH]; simpl; congruence.
Qed.

Lemma length_active_column T : length (active_column T) = length (group_keys T).
Proof.
  unfold active_column, col_sub.
  rewrite !length_zip_with, !length_summed. lia.
Qed.

Lemma lookup_active_column T i d :
  group_keys T !! i = Some d →
  active_column T !! i =
  Some (total Confirmed (on_date d T) - total Deaths (on_date d T)
        - total Recovered (on_date d T)).
Proof.
  intros H. unfold active_column, col_sub.
  rewrite !lookup_zip_with.
  rewrite (lookup_summed Confirmed T i d H), (lookup_summed Deaths T i d H),
    (lookup_summed Recovered T i d H).
  reflexivity.
Qed.

Lemma series_setitem_fresh k v s :
  k ∉ map fst s → series_setitem k v s = s ++ [(k, v)].
Proof.
  intros Hk. unfold series_setitem.
  destruct (existsb (λ e, fst e =? k) s) eqn:E; [|reflexivity].
  exfalso. apply Hk. apply existsb_exists in E as (e & He & Ek).
  apply Z.eqb_eq in Ek as <-. apply list_elem_of_fmap.
  exists e. split; [reflexivity|now apply list_elem_of_In].
Qed.

Lemma with_Active_sums country T :
  per_date_sums (uses country) T (with_Active (selected country T)).
Proof.
  unfold per_date_sums, with_Active. cbn [g_index g_columns groupby_Date_sum].
  split; [apply group_keys_sorted|]. split.
  - intros d. rewrite elem_of_group_keys. split.
    + intros (r & Hr & Hd). exists r. rewrite selected_uses in Hr.
      apply list_elem_of_In, filter_In in Hr as [Hr Hu].
      split; [now apply list_elem_of_In|]. split; assumption.
    + intros (r & Hr & Hu & Hd). exists r. split; [|exact Hd].
      rewrite selected_uses. apply list_elem_of_In, filter_In.
      split; [now apply list_elem_of_In|exact Hu].
  - intros name col Hin.
    assert (Hsum : ∀ i d, group_keys (selected country T) !! i = Some d →
              summed col (selected country T) !! i =
              Some (total col (List.filter (λ r, uses country r && (Date r =? d)) T))).
    { intros i d Hi. rewrite (lookup_summed col _ i d Hi).
      unfold on_date. rewrite selected_uses, filter_filter. reflexivity. }
    exists (summed col (selected country T)).
    split; [|split; [apply length_summed|exact Hsum]].
    rewrite !elem_of_cons in Hin.
    destruct Hin as [[= -> ->]|[[= -> ->]|[[= -> ->]|Hin]]];
      [| | |inversion Hin];
      repeat first [rewrite lookup_insert_eq | rewrite lookup_insert_ne by discriminate];
      reflexivity.
Qed.

(** With threshold 0 a column without negative values passes whole. *)
Lemma loc_ge_zero_nonnegative idx col :
  Forall (λ v, 0 ≤ v) col → loc_ge 0 idx col = zip idx col.
Proof.
  unfold loc_ge. intros Hcol. revert idx.
  induction Hcol as [|v col Hv Hall IH]; intros [|k idx]; try reflexivity.
  simpl. destruct (Z.leb_spec 0 v); [|lia]. f_equal. apply IH.
Qed.

(** *** The result and the store of [clean_data] *)

Lemma clean_data_kept clock h data T country threshold tc td ta rest :
  frames h !! data = Some T →
  thresholds threshold = tc :: td :: ta :: rest →
  ∃ confirmed deaths active,
    fst (clean_data clock data country threshold None h)
    = Ok (confirmed, deaths, active) ∧
    kept tc (zip (group_keys (selected country T))
                 (summed Confirmed (selected country T))) confirmed ∧
    kept td (zip (group_keys (selected country T))
                 (summed Deaths (selected country T))) deaths ∧
    kept ta (zip (group_keys (selected country T))
                 (active_column (selected country T))) active.
Proof.
  intros Hd Hth. eexists _, _, _. split.
  - erewrite clean_data_plain by (try eassumption; reflexivity). reflexivity.
  - split; [|split]; apply kept_drop_duplicates;
      try apply group_keys_sorted;
      rewrite ?length_summed, ?length_active_column; reflexivity.
Qed.

Lemma clean_data_grouped clock h data T country threshold lastminute :
  frames h !! data = Some T →
  groups (snd (clean_data clock data country threshold lastminute h))
    !! length (groups h) = Some (with_Active (selected country T)).
Proof.
  intros Hd.
  destruct (clean_data_store clock data country T threshold lastminute h Hd)
    as [n ->].
  unfold after_call. cbn [groups]. apply list_lookup_middle. reflexivity.
Qed.

Lemma clean_data_series clock h data T country threshold cs ds acts :
  frames h !! data = Some T →
  fst (clean_data clock data country threshold None h) = Ok (cs, ds, acts) →
  ∃ tc td ta rest,
    thresholds threshold = tc :: td :: ta :: rest ∧
    cs = drop_duplicates (loc_ge tc (group_keys (selected country T))
                                 (summed Confirmed (selected country T))) ∧
    ds = drop_duplicates (loc_ge td (group_keys (selected country T))
                                 (summed Deaths (selected country T))) ∧
    acts = drop_duplicates (loc_ge ta (group_keys (selected country T))
                                   (active_column (selected country T))).
Proof.
  intros Hd Hres.
  destruct (clean_data_Ok_inv _ _ _ _ _ _ Hres)
    as (T' & t0 & t1 & t2 & rest & HT' & Hth).
  assert (T' = T) as -> by congruence.
  rewrite (clean_data_plain clock data country T threshold t0 t1 t2 rest None h
             Hd Hth eq_refl) in Hres.
  cbn [fst] in Hres. injection Hres as <- <- <-.
  exists t0, t1, t2, rest. repeat split; assumption || reflexivity.
Qed.

Lemma with_Active_columns T :
  g_columns (with_Active T) !! "Confirmed"%string = Some (summed Confirmed T) ∧
  g_columns (with_Active T) !! "Deaths"%string = Some (summed Deaths T) ∧
  g_columns (with_Active T) !! "Recovered"%string = Some (summed Recovered T) ∧
  g_columns (with_Active T) !! "Active"%string = Some (active_column T).
Proof.
  unfold with_Active. cbn [g_index g_columns groupby_Date_sum].
  repeat split;
    repeat first [rewrite lookup_insert_eq
                 | rewrite lookup_insert_ne by discriminate];
    reflexivity.
Qed.

Lemma series_setitem_stores k v s : (k, v) ∈ series_setitem k v s.
Proof.
  unfold series_setitem.
  destruct (existsb (λ e, fst e =? k) s) eqn:E.
  - apply existsb_exists in E as (e & He & Ek).
    apply list_elem_of_fmap. exists e. rewrite Ek.
    apply Z.eqb_eq in Ek as ->.
    split; [reflexivity|now apply list_elem_of_In].
  - apply elem_of_app. right. apply list_elem_of_singleton. reflexivity.
Qed.

Lemma series_setitem_present k v s :
  k ∈ map fst s →
  series_setitem k v s = map (λ e, if fst e =? k then (fst e, v) else e) s.
Proof.
  intros Hk. unfold series_setitem.
  destruct (existsb (λ e, fst e =? k) s) eqn:E; [reflexivity|].
  apply list_elem_of_fmap in Hk as (e & -> & He).
  assert (existsb (λ e0, fst e0 =? fst e) s = true) as E'.
  { apply existsb_exists. exists e.
    split; [now apply list_elem_of_In|apply Z.eqb_refl]. }
  congruence.
Qed.

Lemma series_setitem_in_place k v s i d x :
  k ∈ map fst s →
  s !! i = Some (d, x) →
  series_setitem k v s !! i = Some (d, if d =? k then v else x).
Proof.
  intros Hk Hi. rewrite (series_setitem_present k v s Hk).
  unfold Series in *.
  rewrite list_lookup_fmap, Hi. cbn.
  destruct (d =? k); reflexivity.
Qed.

Lemma series_setitem_entered k v s : entered k v s (series_setitem k v s).
Proof.
  split; [apply series_setitem_stores|].
  split; [apply series_setitem_fresh|].
  intros Hk. split.
  - rewrite (series_setitem_present k v s Hk). apply length_map.
  - intros i d x. now apply series_setitem_in_place.
Qed.

(** ** The claims on [clean_data] *)

(** C2: for every table, region filter and thresholds (tc, td, ta), each of
    the three series that [clean_data] returns holds only values at or above
    its metric's threshold, holds each value once, namely at the date where
    the value occurs first in the per-date series of the metric, and keeps
    the order of that series, dates ascending.  In particular the confirmed
    counts 10, 10, 20, 30, 30 with threshold 0 give 10, 20, 30 at the dates
    of their first occurrence. *)
Theorem clean_data_keeps_first_occurrences_above_threshold :
  (∀ (clock : nat → Z) (h : Heap) (data : ref) (T : DataFrame)
     (country : option string) (tc td ta : Z),
      frames h !! data = Some T →
      ∃ confirmed deaths active,
        fst (clean_data clock data country (Some [tc; td; ta]) None h)
        = Ok (confirmed, deaths, active) ∧
        kept tc (zip (group_keys (selected country T))
                     (summed Confirmed (selected country T))) confirmed ∧
        kept td (zip (group_keys (selected country T))
                     (summed Deaths (selected country T))) deaths ∧
        kept ta (zip (group_keys (selected country T))
                     (active_column (selected country T))) active) ∧
  (∀ clock : nat → Z,
      zip (group_keys repeated_counts) (summed Confirmed repeated_counts)
      = [(1, 10); (2, 10); (3, 20); (4, 30); (5, 30)] ∧
      ∃ deaths active,
        fst (clean_data clock 0%nat None (Some [0; 0; 0]) None
                        (store_of repeated_counts))
        = Ok ([(1, 10); (3, 20); (4, 30)], deaths, active)).
Proof.
  split.
  - intros clock h data T country tc td ta Hd.
    apply (clean_data_kept clock h data T country (Some [tc; td; ta])
             tc td ta [] Hd eq_refl).
  - intros clock. split; [reflexivity|].
    eexists _, _. vm_compute. reflexivity.
Qed.

Lemma clean_data_keeps_first_occurrences_above_threshold_witness :
  frames (store_of two_regions) !! 0%nat = Some two_regions ∧
  ∃ confirmed deaths active,
    fst (clean_data (stopped_at 9) 0%nat (Some "A"%string) (Some [15; 1; 0]) None
                    (store_of two_regions))
    = Ok (confirmed, deaths, active) ∧
    kept 15 (zip (group_keys (selected (Some "A"%string) two_regions))
                 (summed Confirmed (selected (Some "A"%string) two_regions)))
         confirmed ∧
    kept 1 (zip (group_keys (selected (Some "A"%string) two_regions))
                (summed Deaths (selected (Some "A"%string) two_regions)))
         deaths ∧
    kept 0 (zip (group_keys (selected (Some "A"%string) two_regions))
                (active_column (selected (Some "A"%string) two_regions)))
         active.
Proof.
  split; [reflexivity|].
  apply (proj1 clean_data_keeps_first_occurrences_above_threshold
           (stopped_at 9) (store_of two_regions) 0%nat two_regions).
  reflexivity.
Defined.

(** C3: the [Active] column that [clean_data] assigns to the grouped frame
    is, date by date, Confirmed - Deaths - Recovered of the summed columns of
    that frame; the Active series returned is that column filtered by
    threshold and duplicates, so the subtraction comes after the aggregation
    and before the filtering. *)
Theorem Active_is_Confirmed_less_Deaths_less_Recovered
        (clock : nat → Z) (h : Heap) (data : ref) (T : DataFrame)
        (country : option string) (threshold lastminute : option (list Z)) :
  frames h !! data = Some T →
  ∃ G confirmed deaths recovered active,
    groups (snd (clean_data clock data country threshold lastminute h))
      !! length (groups h) = Some G ∧
    g_index G = group_keys (selected country T) ∧
    g_columns G !! "Confirmed"%string = Some confirmed ∧
    g_columns G !! "Deaths"%string = Some deaths ∧
    g_columns G !! "Recovered"%string = Some recovered ∧
    g_columns G !! "Active"%string = Some active ∧
    confirmed = summed Confirmed (selected country T) ∧
    deaths = summed Deaths (selected country T) ∧
    recovered = summed Recovered (selected country T) ∧
    length active = length (g_index G) ∧
    (∀ i day, g_index G !! i = Some day →
              ∃ c d r, confirmed !! i = Some c ∧ deaths !! i = Some d ∧
                       recovered !! i = Some r ∧ active !! i = Some (c - d - r)) ∧
    (∀ cs ds acts,
        fst (clean_data clock data country threshold None h) = Ok (cs, ds, acts) →
        ∃ ta, thresholds threshold !! 2%nat = Some ta ∧
              acts = drop_duplicates (loc_ge ta (g_index G) active)).
Proof.
  intros Hd.
  exists (with_Active (selected country T)).
  eexists _, _, _, _.
  split; [apply clean_data_grouped, Hd|].
  split; [reflexivity|].
  destruct (with_Active_columns (selected country T)) as (Hc & Hde & Hr & Ha).
  do 4 (split; [eassumption|]).
  do 3 (split; [reflexivity|]).
  split; [apply length_active_column|]. split.
  - intros i day Hi. cbn [with_Active g_index] in Hi. eexists _, _, _.
    rewrite !(lookup_summed _ _ i day Hi), (lookup_active_column _ i day Hi).
    repeat split; reflexivity.
  - intros cs ds acts Hres.
    destruct (clean_data_series _ _ _ _ _ _ _ _ _ Hd Hres)
      as (tc & td & ta & rest & Hth & _ & _ & ->).
    exists ta. rewrite Hth. split; reflexivity.
Qed.

Lemma Active_is_Confirmed_less_Deaths_less_Recovered_witness :
  frames (store_of two_regions) !! 0%nat = Some two_regions ∧
  ∃ G confirmed deaths recovered active,
    groups (snd (clean_data (stopped_at 9) 0%nat None None None
                            (store_of two_regions)))
      !! length (groups (store_of two_regions)) = Some G ∧
    g_index G = group_keys (selected None two_regions) ∧
    g_columns G !! "Confirmed"%string = Some confirmed ∧
    g_columns G !! "Deaths"%string = Some deaths ∧
    g_columns G !! "Recovered"%string = Some recovered ∧
    g_columns G !! "Active"%string = Some active ∧
    confirmed = summed Confirmed (selected None two_regions) ∧
    deaths = summed Deaths (selected None two_regions) ∧
    recovered = summed Recovered (selected None two_regions) ∧
    length active = length (g_index G) ∧
    (∀ i day, g_index G !! i = Some day →
              ∃ c d r, confirmed !! i = Some c ∧ deaths !! i = Some d ∧
                       recovered !! i = Some r ∧ active !! i = Some (c - d - r)) ∧
    (∀ cs ds acts,
        fst (clean_data (stopped_at 9) 0%nat None None None (store_of two_regions))
        = Ok (cs, ds, acts) →
        ∃ ta, thresholds None !! 2%nat = Some ta ∧
              acts = drop_duplicates (loc_ge ta (g_index G) active)).
Proof.
  split; [reflexivity|].
  apply (Active_is_Confirmed_less_Deaths_less_Recovered
           (stopped_at 9) (store_of two_regions) 0%nat two_regions None None None).
  reflexivity.
Defined.

(** C4, as the code has it: a region label other than the empty string makes
    [clean_data] sum, per date, only the rows whose Country equals the label;
    with the region omitted, or given as the empty string, it sums all rows
    per date.  The confirmed and deaths series returned are read from these
    sums.  Two regions with confirmed counts (10, 5), (20, 15), (30, 25)
    give the totals 15, 35, 55, and region A alone 10, 20, 30. *)
Theorem clean_data_sums_the_rows_in_use :
  (∀ (clock : nat → Z) (h : Heap) (data : ref) (T : DataFrame)
     (country : option string) (threshold lastminute : option (list Z)),
      frames h !! data = Some T →
      ∃ G, groups (snd (clean_data clock data country threshold lastminute h))
             !! length (groups h) = Some G ∧
           per_date_sums (uses country) T G ∧
           (∀ r, uses country r = true ↔
                 country = None ∨ country = Some EmptyString ∨
                 country = Some (Country r)) ∧
           ∀ cs ds acts,
             fst (clean_data clock data country threshold None h)
             = Ok (cs, ds, acts) →
             ∃ confirmed deaths tc td,
               g_columns G !! "Confirmed"%string = Some confirmed ∧
               g_columns G !! "Deaths"%string = Some deaths ∧
               thresholds threshold !! 0%nat = Some tc ∧
               thresholds threshold !! 1%nat = Some td ∧
               cs = drop_duplicates (loc_ge tc (g_index G) confirmed) ∧
               ds = drop_duplicates (loc_ge td (g_index G) deaths)) ∧
  (∀ clock : nat → Z,
      (∃ deaths active,
          fst (clean_data clock 0%nat None None None (store_of two_regions))
          = Ok ([(1, 15); (2, 35); (3, 55)], deaths, active)) ∧
      (∃ deaths active,
          fst (clean_data clock 0%nat (Some "A"%string) None None
                          (store_of two_regions))
          = Ok ([(1, 10); (2, 20); (3, 30)], deaths, active))).
Proof.
  split.
  - intros clock h data T country threshold lastminute Hd.
    exists (with_Active (selected country T)).
    split; [apply clean_data_grouped, Hd|].
    split; [apply with_Active_sums|]. split.
    + intros r. unfold uses. destruct country as [c|].
      * rewrite orb_true_iff, !String.eqb_eq. split.
        -- intros [->| <-]; auto.
        -- intros [H|[[= ->]|[= ->]]]; [discriminate|auto..].
      * split; auto.
    + intros cs ds acts Hres.
      destruct (clean_data_series _ _ _ _ _ _ _ _ _ Hd Hres)
        as (tc & td & ta & rest & Hth & -> & -> & _).
      destruct (with_Active_columns (selected country T)) as (Hc & Hde & _ & _).
      eexists _, _, tc, td. rewrite Hth.
      do 2 (split; [eassumption|]).
      repeat split; reflexivity.
  - intros clock. split; eexists _, _; vm_compute; reflexivity.
Qed.

Lemma clean_data_sums_the_rows_in_use_witness :
  frames (store_of unnamed_region) !! 0%nat = Some unnamed_region ∧
  ∃ G, groups (snd (clean_data (stopped_at 9) 0%nat (Some "A"%string) None None
                               (store_of unnamed_region)))
         !! length (groups (store_of unnamed_region)) = Some G ∧
       per_date_sums (uses (Some "A"%string)) unnamed_region G ∧
       (∀ r, uses (Some "A"%string) r = true ↔
             Some "A"%string = None ∨ Some "A"%string = Some EmptyString ∨
             Some "A"%string = Some (Country r)) ∧
       ∀ cs ds acts,
         fst (clean_data (stopped_at 9) 0%nat (Some "A"%string) None None
                         (store_of unnamed_region))
         = Ok (cs, ds, acts) →
         ∃ confirmed deaths tc td,
           g_columns G !! "Confirmed"%string = Some confirmed ∧
           g_columns G !! "Deaths"%string = Some deaths ∧
           thresholds None !! 0%nat = Some tc ∧
           thresholds None !! 1%nat = Some td ∧
           cs = drop_duplicates (loc_ge tc (g_index G) confirmed) ∧
           ds = drop_duplicates (loc_ge td (g_index G) deaths).
Proof.
  split; [reflexivity|].
  apply (proj1 clean_data_sums_the_rows_in_use
           (stopped_at 9) (store_of unnamed_region) 0%nat unnamed_region
           (Some "A"%string) None None).
  reflexivity.
Defined.

(** C4 as stated fails for the label that is the empty string: the call
    sums all regions (15 and 35 confirmed), where the rows whose Country
    equals that label alone give 5 and 15. *)
Lemma empty_label_sums_all_regions :
  fst (clean_data (stopped_at 9) 0%nat (Some EmptyString) None None
                  (store_of unnamed_region))
  = Ok ([(1, 15); (2, 35)], [(1, 0); (2, 1)], [(1, 15); (2, 33)]) ∧
  fst (clean_data (stopped_at 9) 0%nat None None None
                  (store_of (where_country EmptyString unnamed_region)))
  = Ok ([(1, 5); (2, 15)], [(1, 0)], [(1, 5); (2, 14)]) ∧
  fst (clean_data (stopped_at 9) 0%nat (Some EmptyString) None None
                  (store_of unnamed_region))
  ≠ fst (clean_data (stopped_at 9) 0%nat None None None
                    (store_of (where_country EmptyString unnamed_region))).
Proof. repeat split; try (vm_compute; reflexivity). vm_compute. discriminate. Qed.

(** C5, as the code has it: a manual point (c, d, r) is entered into each of
    the three filtered series under the timestamp the clock gives: c in the
    confirmed series, d in the deaths series, c - d - r in the active
    series, as given, with no threshold and no duplicate check.  The entry
    is appended as the last one of a series that has no entry at that
    timestamp yet; in a series that has one, the value at that timestamp is
    replaced by the manual value, nothing is appended, and every other entry
    stays as it is, in place. *)
Theorem manual_point_is_entered_at_the_current_timestamp
        (clock : nat → Z) (h : Heap) (data : ref) (country : option string)
        (threshold : option (list Z)) (confirmed deaths active : Series)
        (c d r : Z) :
  fst (clean_data clock data country threshold None h)
  = Ok (confirmed, deaths, active) →
  ∃ confirmed' deaths' active',
    fst (clean_data clock data country threshold (Some [c; d; r]) h)
    = Ok (confirmed', deaths', active') ∧
    entered (clock (ticks h)) c confirmed confirmed' ∧
    entered (clock (S (ticks h))) d deaths deaths' ∧
    entered (clock (S (S (ticks h)))) (c - d - r) active active'.
Proof.
  intros Hres.
  destruct (clean_data_Ok_inv _ _ _ _ _ _ Hres)
    as (T & t0 & t1 & t2 & rest & HT & Hth).
  rewrite (clean_data_plain clock data country T threshold t0 t1 t2 rest
             None h HT Hth eq_refl) in Hres.
  cbn [fst] in Hres. injection Hres as <- <- <-.
  rewrite (clean_data_lastminute clock data country T threshold t0 t1 t2 rest
             c d r [] h HT Hth).
  cbn [fst]. eexists _, _, _. split; [reflexivity|].
  split; [|split]; apply series_setitem_entered.
Qed.

Lemma manual_point_is_entered_at_the_current_timestamp_witness :
  fst (clean_data (running_from 100) 0%nat None (Some [20; 0; 0]) None
                  (store_of two_regions))
  = Ok ([(2, 35); (3, 55)], [(1, 0); (2, 1); (3, 3)], [(1, 15); (2, 33); (3, 48)]) ∧
  ∃ confirmed' deaths' active',
    fst (clean_data (running_from 100) 0%nat None (Some [20; 0; 0])
                    (Some [7; 1; 1]) (store_of two_regions))
    = Ok (confirmed', deaths', active') ∧
    entered (running_from 100 (ticks (store_of two_regions))) 7
            [(2, 35); (3, 55)] confirmed' ∧
    entered (running_from 100 (S (ticks (store_of two_regions)))) 1
            [(1, 0); (2, 1); (3, 3)] deaths' ∧
    entered (running_from 100 (S (S (ticks (store_of two_regions))))) (7 - 1 - 1)
            [(1, 15); (2, 33); (3, 48)] active'.
Proof.
  split; [vm_compute; reflexivity|].
  apply (manual_point_is_entered_at_the_current_timestamp
           (running_from 100) (store_of two_regions) 0%nat None (Some [20; 0; 0])).
  vm_compute. reflexivity.
Defined.

(** C5 as stated fails when the clock reads a date of the series: the value
    at that date is replaced and nothing is appended. *)
Lemma manual_point_replaces_an_existing_date :
  ∃ confirmed deaths active,
    fst (clean_data (stopped_at 2) 0%nat None None (Some [7; 1; 1])
                    (store_of two_regions))
    = Ok (confirmed, deaths, active) ∧
    confirmed = [(1, 15); (2, 7); (3, 55)] ∧
    last confirmed = Some (3, 55) ∧
    confirmed ≠ [(1, 15); (2, 35); (3, 55)] ++ [(2, 7)] ∧
    active = [(1, 15); (2, 5); (3, 48)].
Proof.
  eexists _, _, _. split; [vm_compute; reflexivity|].
  repeat split; try reflexivity. discriminate.
Qed.

(** C8, as the code has it: a call of [clean_data] with the thresholds
    omitted is the call with the thresholds 0, 0, 0: same result, same
    store.  Each series it returns is the per-date series of its metric
    filtered at threshold 0: the values at or above 0 are kept (first
    occurrences), the values below 0 are dropped. *)
Theorem default_threshold_is_zero :
  (∀ (clock : nat → Z) (h : Heap) (data : ref) (country : option string)
     (lastminute : option (list Z)),
      clean_data clock data country None lastminute h
      = clean_data clock data country (Some [0; 0; 0]) lastminute h) ∧
  (∀ (clock : nat → Z) (h : Heap) (data : ref) (T : DataFrame)
     (country : option string),
      frames h !! data = Some T →
      ∃ confirmed deaths active,
        fst (clean_data clock data country None None h)
        = Ok (confirmed, deaths, active) ∧
        kept 0 (zip (group_keys (selected country T))
                    (summed Confirmed (selected country T))) confirmed ∧
        kept 0 (zip (group_keys (selected country T))
                    (summed Deaths (selected country T))) deaths ∧
        kept 0 (zip (group_keys (selected country T))
                    (active_column (selected country T))) active).
Proof.
  split.
  - reflexivity.
  - intros clock h data T country Hd.
    apply (clean_data_kept clock h data T country None 0 0 0 [] Hd eq_refl).
Qed.

Lemma default_threshold_is_zero_witness :
  frames (store_of repeated_counts) !! 0%nat = Some repeated_counts ∧
  ∃ confirmed deaths active,
    fst (clean_data (stopped_at 9) 0%nat None None None (store_of repeated_counts))
    = Ok (confirmed, deaths, active) ∧
    kept 0 (zip (group_keys (selected None repeated_counts))
                (summed Confirmed (selected None repeated_counts))) confirmed ∧
    kept 0 (zip (group_keys (selected None repeated_counts))
                (summed Deaths (selected None repeated_counts))) deaths ∧
    kept 0 (zip (group_keys (selected None repeated_counts))
                (active_column (selected None repeated_counts))) active.
Proof.
  split; [reflexivity|].
  apply (proj2 default_threshold_is_zero
           (stopped_at 9) (store_of repeated_counts) 0%nat repeated_counts None).
  reflexivity.
Defined.

(** C8 as stated fails on a table whose Active is negative on some dates:
    with the thresholds omitted, the default threshold 0 drops those dates
    from the Active series, where no thresholding would keep them. *)
Lemma default_threshold_drops_negative_values :
  zip (group_keys negative_active) (active_column negative_active)
  = [(1, -2); (2, -1); (3, 2)] ∧
  drop_duplicates (zip (group_keys negative_active) (active_column negative_active))
  = [(1, -2); (2, -1); (3, 2)] ∧
  fst (clean_data (stopped_at 9) 0%nat None None None (store_of negative_active))
  = Ok ([(1, 1); (2, 2); (3, 5)], [(1, 1)], [(3, 2)]) ∧
  [(3, 2)] ≠ drop_duplicates (zip (group_keys negative_active)
                                  (active_column negative_active)).
Proof.
  split; [vm_compute; reflexivity|].
  split; [vm_compute; reflexivity|].
  split; [vm_compute; reflexivity|].
  vm_compute. discriminate.
Qed.

(** C9: [clean_data] leaves the caller's table as it was, and every other
    frame of the store as well, whatever the region, the thresholds and the
    manual point, also when the call raises; the frames it makes, and the
    one it assigns [Active] to, are new objects. *)
Theorem clean_data_leaves_the_table_unchanged
        (clock : nat → Z) (h : Heap) (data : ref) (T : DataFrame)
        (country : option string) (threshold lastminute : option (list Z)) :
  frames h !! data = Some T →
  frames (snd (clean_data clock data country threshold lastminute h)) !! data
  = Some T ∧
  (∀ other X, frames h !! other = Some X →
              frames (snd (clean_data clock data country threshold lastminute h))
                !! other = Some X) ∧
  (∀ g G, groups h !! g = Some G →
          groups (snd (clean_data clock data country threshold lastminute h))
            !! g = Some G).
Proof.
  intros Hd.
  destruct (clean_data_store clock data country T threshold lastminute h Hd)
    as [n ->].
  unfold after_call. cbn [frames groups].
  split; [|split].
  - destruct (truthy_str country); [apply lookup_app_l_Some|]; assumption.
  - intros other X HX.
    destruct (truthy_str country); [apply lookup_app_l_Some|]; assumption.
  - intros g G HG. apply lookup_app_l_Some, HG.
Qed.

Lemma clean_data_leaves_the_table_unchanged_witness :
  frames (store_of two_regions) !! 0%nat = Some two_regions ∧
  frames (snd (clean_data (stopped_at 9) 0%nat (Some "B"%string) (Some [0; 0; 0])
                          (Some [7; 1; 1]) (store_of two_regions))) !! 0%nat
  = Some two_regions.
Proof.
  split; [reflexivity|].
  exact (proj1 (clean_data_leaves_the_table_unchanged
                  (stopped_at 9) (store_of two_regions) 0%nat two_regions
                  (Some "B"%string) (Some [0; 0; 0]) (Some [7; 1; 1]) eq_refl)).
Defined.



(** ** Fitting *)

Section FittingFacts.

Context {float Model Figure : Type}.
Variable float_lt : float → float → bool.
Variable solve : Model → list Z → list Z → option (list float) →
                 list float → list float → result (list float).
Variable draw : Model → list Z → Series → list Z → list float → Z → Z → Z →
                result Figure.
Variable day_label : Z → Z → string.
Variable decorate : Figure → list Z → list string → string → Figure.
Variable writable : string → bool.

Lemma exceeds_true lbounds gbounds i l u :
  lbounds !! i = Some l → gbounds !! i = Some u → float_lt u l = true →
  exceeds float float_lt lbounds gbounds = true.
Proof.
  intros Hl Hu Hlt. unfold exceeds. apply existsb_exists.
  exists (l, u). split; [|exact Hlt].
  apply list_elem_of_In, (list_elem_of_lookup_2 _ i).
  rewrite lookup_zip_with, Hl, Hu. reflexivity.
Qed.

Lemma outside_true lbounds gbounds g i x l u :
  g !! i = Some x → lbounds !! i = Some l → gbounds !! i = Some u →
  float_lt x l = true ∨ float_lt u x = true →
  outside float float_lt (Some g) lbounds gbounds = true.
Proof.
  intros Hg Hl Hu Hlt. unfold outside. apply existsb_exists.
  exists (x, (l, u)). split.
  - apply list_elem_of_In, (list_elem_of_lookup_2 _ i).
    rewrite lookup_zip_with, Hg. cbn [mbind option_bind].
    rewrite lookup_zip_with, Hl, Hu. reflexivity.
  - apply orb_true_iff. exact Hlt.
Qed.

Lemma infeasible_checked lbounds gbounds guess :
  infeasible float_lt lbounds gbounds guess →
  exceeds float float_lt lbounds gbounds
  || outside float float_lt guess lbounds gbounds = true.
Proof.
  intros [(i & l & u & Hl & Hu & Hlt)|(g & i & x & l & u & -> & Hg & Hl & Hu & Hlt)];
    apply orb_true_iff.
  - left. eapply exceeds_true; eassumption.
  - right. eapply outside_true; eassumption.
Qed.

Lemma curve_fit_rejects model xdata ydata guess lbounds gbounds w :
  infeasible float_lt lbounds gbounds guess →
  curve_fit float float_lt Model Figure solve model xdata ydata guess
            (lbounds, gbounds) w
  = (Raise ValueError, w).
Proof.
  intros H. unfold curve_fit. cbn [fst snd].
  rewrite (infeasible_checked _ _ _ H). reflexivity.
Qed.

End FittingFacts.

(** C7: when some lower bound is above its upper bound, or the guess lies
    outside the bounds, [fit] raises ValueError and leaves everything as it
    was: the solver has not run and no image is written. *)
Theorem fit_rejects_infeasible_bounds
        {float Model Figure : Type} (float_lt : float → float → bool)
        (solve : Model → list Z → list Z → option (list float) →
                 list float → list float → result (list float))
        (draw : Model → list Z → Series → list Z → list float → Z → Z → Z →
                result Figure)
        (day_label : Z → Z → string)
        (decorate : Figure → list Z → list string → string → Figure)
        (writable : string → bool)
        (values : Series) (model : Model) (lbounds gbounds : list float)
        (guess : option (list float)) (route title : string)
        (tmin tmax scale days_range : Z) (w : Disk Figure) :
  infeasible float_lt lbounds gbounds guess →
  fit float float_lt Model Figure solve draw day_label decorate writable
      values model lbounds gbounds guess route title tmin tmax scale days_range w
  = (Raise ValueError, w).
Proof.
  intros H. unfold fit, mbind, M_bind.
  rewrite (curve_fit_rejects float_lt solve _ _ _ _ _ _ _ H). reflexivity.
Qed.

Lemma fit_rejects_infeasible_bounds_witness :
  infeasible Z.ltb [0; 5] [10; 1] None ∧
  fit Z Z.ltb unit unit guess_back no_drawing fixed_label plain_decorate any_route
      [(1, 10); (2, 20); (3, 30)] tt [0; 5] [10; 1] None
      "figures/" "Logistic Model" 0 50 1000 7 empty_disk
  = (Raise ValueError, empty_disk).
Proof.
  assert (H : infeasible Z.ltb [0; 5] [10; 1] None).
  { left. exists 1%nat, 5, 1. repeat split; reflexivity. }
  split; [exact H|].
  apply (fit_rejects_infeasible_bounds Z.ltb guess_back no_drawing fixed_label
           plain_decorate any_route). exact H.
Defined.

Example fit_feasible :
  fit Z Z.ltb unit unit guess_back no_drawing fixed_label plain_decorate any_route
      [(1, 10); (2, 20); (3, 30)] tt [0; 1] [10; 5] (Some [2; 3])
      "figures/" "Logistic Model" 0 50 1000 7 empty_disk
  = (Ok [2; 3],
     {| images := [("figures/logistic_model.png"%string, tt)]; solver_runs := 1 |}).
Proof. vm_compute. reflexivity. Qed.

(** * Further properties *)

(** ** Ingestion, further *)

Section IngestionMore.

Context {Cell : Type}.
Variable isna : Cell → bool.
Variable zero : Cell.
Variable read_csv : string → nat → nat → result (@Table Cell).
Variable to_datetime : bool → list Cell → result (list Cell).

Lemma filter_named_nil n (df : @Table Cell) :
  n ∉ column_names df → List.filter (named n) df = [].
Proof.
  unfold column_names. induction df as [|c df IH]; simpl; [reflexivity|].
  rewrite not_elem_of_cons. intros [Hc Hdf]. unfold named at 1.
  destruct (String.eqb_spec (fst c) n) as [E|_]; [congruence|]. apply IH, Hdf.
Qed.

Lemma filter_named_set_column n col (df : @Table Cell) :
  List.filter (named n) (set_column n col df)
  = map (λ c, (fst c, col)) (List.filter (named n) df).
Proof.
  unfold set_column. induction df as [|c df IH]; simpl; [reflexivity|].
  destruct (named n c) eqn:E; simpl.
  - unfold named in *. simpl. rewrite E. simpl. f_equal. exact IH.
  - rewrite E. exact IH.
Qed.

Lemma lookup_prepared m (src : @Table Cell) i n c :
  src !! i = Some (n, c) →
  rename m (fillna isna zero src) !! i
  = Some (rename_label m n, map (λ x, if isna x then zero else x) c).
Proof.
  intros H. unfold rename, fillna.
  change (@lookup nat (string * list Cell) (@Table Cell) _) with
    (@lookup nat (string * list Cell) (list (string * list Cell)) _) in *.
  rewrite !list_lookup_fmap, H. reflexivity.
Qed.

Lemma lookup_set_column n col (df : @Table Cell) i :
  set_column n col df !! i
  = (λ c, if named n c then (fst c, col) else c) <$> (df !! i).
Proof.
  unfold set_column.
  change (@lookup nat (string * list Cell) (@Table Cell) _) with
    (@lookup nat (string * list Cell) (list (string * list Cell)) _) in *.
  apply list_lookup_fmap.
Qed.

Lemma convert_dates_Ok dayfirst (df df' : @Table Cell) :
  convert_dates to_datetime dayfirst df = Ok df' →
  ∃ c col, List.filter (named "Date") df = [c] ∧
           to_datetime dayfirst (snd c) = Ok col ∧
           df' = set_column "Date" col df.
Proof.
  unfold convert_dates.
  destruct (List.filter (named "Date") df) as [|c [|c' rest]]; try discriminate.
  destruct (to_datetime dayfirst (snd c)) as [col|e] eqn:E; simpl; try discriminate.
  intros [= <-]. exists c, col. repeat split; assumption || reflexivity.
Qed.

Lemma get_data_Ok csv_route date_label country_label confirmed_label
      deaths_label recovered_label drop_first drop_last dayfirst df :
  get_data isna zero read_csv to_datetime csv_route date_label country_label
           confirmed_label deaths_label recovered_label
           drop_first drop_last dayfirst = Ok df →
  ∃ source c col,
    read_csv csv_route drop_first drop_last = Ok source ∧
    List.filter (named "Date")
      (rename (labels date_label country_label confirmed_label deaths_label
                      recovered_label) (fillna isna zero source)) = [c] ∧
    to_datetime dayfirst (snd c) = Ok col ∧
    df = set_column "Date" col
           (rename (labels date_label country_label confirmed_label deaths_label
                           recovered_label) (fillna isna zero source)).
Proof.
  unfold get_data. intros H.
  destruct (read_csv csv_route drop_first drop_last) as [source|e];
    simpl in H; [|discriminate].
  apply convert_dates_Ok in H as (c & col & Hf & Ht & ->).
  exists source, c, col. repeat split; assumption || reflexivity.
Qed.

End IngestionMore.

Lemma rename_label_labels d c cf de r n :
  rename_label (labels d c cf de r) n =
  if decide (r = n) then "Recovered"%string
  else if decide (de = n) then "Deaths"%string
  else if decide (cf = n) then "Confirmed"%string
  else if decide (c = n) then "Country"%string
  else if decide (d = n) then "Date"%string
  else n.
Proof.
  unfold rename_label, labels. rewrite !lookup_insert, lookup_empty.
  repeat case_decide; reflexivity.
Qed.

Lemma rename_label_default n :
  rename_label (labels "Date" "Country" "Confirmed" "Deaths" "Recovered") n = n.
Proof.
  rewrite rename_label_labels. repeat case_decide; congruence.
Qed.

(** X1: when no column of the source carries the name Date after the
    renaming, [get_data] raises KeyError (line 30 reads [df['Date']]). *)
Theorem get_data_without_Date_column
        {Cell : Type} (isna : Cell → bool) (zero : Cell)
        (read_csv : string → nat → nat → result (@Table Cell))
        (to_datetime : bool → list Cell → result (list Cell))
        (csv_route date_label country_label confirmed_label deaths_label
         recovered_label : string)
        (drop_first drop_last : nat) (dayfirst : bool) (source : @Table Cell) :
  read_csv csv_route drop_first drop_last = Ok source →
  "Date"%string ∉ map (rename_label (labels date_label country_label
                                             confirmed_label deaths_label
                                             recovered_label))
                      (column_names source) →
  get_data isna zero read_csv to_datetime csv_route date_label country_label
           confirmed_label deaths_label recovered_label
           drop_first drop_last dayfirst = Raise KeyError.
Proof.
  intros Hr Hn. unfold get_data. rewrite Hr. simpl. unfold convert_dates.
  rewrite filter_named_nil; [reflexivity|].
  rewrite column_names_rename, column_names_fillna. exact Hn.
Qed.

Lemma get_data_without_Date_column_witness :
  read_days "covid.csv" 0 0 = Ok csv_days ∧
  get_data csv_isna (Number 0) read_days march_days "covid.csv"
           "Date" "Country" "Confirmed" "Deaths" "Recovered" 0 0 false
  = Raise KeyError.
Proof.
  split; [reflexivity|].
  apply (get_data_without_Date_column csv_isna (Number 0) read_days march_days
           "covid.csv" "Date" "Country" "Confirmed" "Deaths" "Recovered"
           0 0 false csv_days).
  - reflexivity.
  - intros H. apply list_elem_of_In in H. vm_compute in H.
    intuition discriminate.
Defined.

(** X2: with the default labels nothing is renamed: the table that
    [get_data] returns has the column names of the source, in order. *)
Theorem get_data_default_labels_rename_nothing
        {Cell : Type} (isna : Cell → bool) (zero : Cell)
        (read_csv : string → nat → nat → result (@Table Cell))
        (to_datetime : bool → list Cell → result (list Cell))
        (csv_route : string) (drop_first drop_last : nat) (dayfirst : bool)
        (df : @Table Cell) :
  get_data isna zero read_csv to_datetime csv_route
           "Date" "Country" "Confirmed" "Deaths" "Recovered"
           drop_first drop_last dayfirst = Ok df →
  ∃ source, read_csv csv_route drop_first drop_last = Ok source ∧
            column_names df = column_names source.
Proof.
  intros H. apply get_data_Ok in H as (source & c & col & Hr & _ & _ & ->).
  exists source. split; [exact Hr|].
  rewrite column_names_set_column, column_names_rename, column_names_fillna.
  rewrite <- (map_id (column_names source)) at 2.
  apply map_ext. intros n. apply rename_label_default.
Qed.

Lemma get_data_default_labels_rename_nothing_witness :
  ∃ source, read_provinces "covid.csv" 0 0 = Ok source ∧
            column_names (set_column "Date" [Number 1; Number 2]
                            (rename (labels "Date" "Country" "Confirmed" "Deaths"
                                            "Recovered")
                               (fillna csv_isna (Number 0) csv_provinces)))
            = column_names source.
Proof.
  apply (get_data_default_labels_rename_nothing csv_isna (Number 0)
           read_provinces parsed_dates "covid.csv" 0 0 false).
  vm_compute. reflexivity.
Defined.

(** X3: every column that is not the Date column comes out as the source
    has it, at the same position, under its name after the renaming, with
    each missing cell replaced by 0 and every other cell untouched. *)
Theorem get_data_fills_the_other_columns
        {Cell : Type} (isna : Cell → bool) (zero : Cell)
        (read_csv : string → nat → nat → result (@Table Cell))
        (to_datetime : bool → list Cell → result (list Cell))
        (csv_route date_label country_label confirmed_label deaths_label
         recovered_label : string)
        (drop_first drop_last : nat) (dayfirst : bool) (df : @Table Cell) :
  get_data isna zero read_csv to_datetime csv_route date_label country_label
           confirmed_label deaths_label recovered_label
           drop_first drop_last dayfirst = Ok df →
  ∃ source,
    read_csv csv_route drop_first drop_last = Ok source ∧
    ∀ i n c,
      source !! i = Some (n, c) →
      rename_label (labels date_label country_label confirmed_label
                           deaths_label recovered_label) n ≠ "Date"%string →
      df !! i
      = Some (rename_label (labels date_label country_label confirmed_label
                                   deaths_label recovered_label) n,
              map (λ x, if isna x then zero else x) c).
Proof.
  intros H. apply get_data_Ok in H as (source & c0 & col & Hr & _ & _ & ->).
  exists source. split; [exact Hr|]. intros i n c Hi Hn.
  rewrite lookup_set_column.
  rewrite (lookup_prepared isna zero _ source i n c Hi). simpl.
  unfold named. simpl.
  destruct (String.eqb_spec
              (rename_label (labels date_label country_label confirmed_label
                                    deaths_label recovered_label) n) "Date")
    as [E|_]; [contradiction|reflexivity].
Qed.

Lemma get_data_fills_the_other_columns_witness :
  ∃ source,
    read_days "covid.csv" 0 0 = Ok source ∧
    ∀ i n c,
      source !! i = Some (n, c) →
      rename_label (labels "Day" "Country" "Confirmed" "Deaths" "Recovered") n
      ≠ "Date"%string →
      set_column "Date" [Number 1; Number 2]
        (rename (labels "Day" "Country" "Confirmed" "Deaths" "Recovered")
           (fillna csv_isna (Number 0) csv_days)) !! i
      = Some (rename_label (labels "Day" "Country" "Confirmed" "Deaths"
                                   "Recovered") n,
              map (λ x, if csv_isna x then Number 0 else x) c).
Proof.
  apply (get_data_fills_the_other_columns csv_isna (Number 0) read_days
           march_days "covid.csv" "Day" "Country" "Confirmed" "Deaths"
           "Recovered" 0 0 false).
  vm_compute. reflexivity.
Defined.

(** X4: provided 0 itself is not a missing cell, no column other than Date
    of the table that [get_data] returns holds a missing cell. *)
Theorem get_data_leaves_no_missing_cell
        {Cell : Type} (isna : Cell → bool) (zero : Cell)
        (read_csv : string → nat → nat → result (@Table Cell))
        (to_datetime : bool → list Cell → result (list Cell))
        (csv_route date_label country_label confirmed_label deaths_label
         recovered_label : string)
        (drop_first drop_last : nat) (dayfirst : bool) (df : @Table Cell) :
  isna zero = false →
  get_data isna zero read_csv to_datetime csv_route date_label country_label
           confirmed_label deaths_label recovered_label
           drop_first drop_last dayfirst = Ok df →
  ∀ n col x, (n, col) ∈ df → n ≠ "Date"%string → x ∈ col → isna x = false.
Proof.
  intros Hz H n col x Hin Hn Hx.
  apply get_data_Ok in H as (source & c0 & col0 & _ & _ & _ & ->).
  unfold set_column in Hin. apply list_elem_of_fmap in Hin as (c1 & E & Hc1).
  unfold rename in Hc1. apply list_elem_of_fmap in Hc1 as (c2 & -> & Hc2).
  unfold fillna in Hc2. apply list_elem_of_fmap in Hc2 as (c3 & -> & Hc3).
  unfold named in E. simpl in E.
  destruct (String.eqb_spec (rename_label
              (labels date_label country_label confirmed_label deaths_label
                      recovered_label) (fst c3)) "Date") as [Ed|_];
    injection E as -> ->; [contradiction|].
  apply list_elem_of_fmap in Hx as (y & -> & _).
  destruct (isna y) eqn:Ey; assumption.
Qed.

Lemma get_data_leaves_no_missing_cell_witness :
  csv_isna (Number 0) = false ∧
  ∀ n col x,
    (n, col) ∈ set_column "Date" [Number 1; Number 2]
                 (rename (labels "Day" "Country" "Confirmed" "Deaths" "Recovered")
                    (fillna csv_isna (Number 0) csv_days)) →
    n ≠ "Date"%string → x ∈ col → csv_isna x = false.
Proof.
  split; [reflexivity|].
  apply (get_data_leaves_no_missing_cell csv_isna (Number 0) read_days
           march_days "covid.csv" "Day" "Country" "Confirmed" "Deaths"
           "Recovered" 0 0 false).
  - reflexivity.
  - vm_compute. reflexivity.
Defined.

(** X5: the table that [get_data] returns has exactly one column named Date;
    it holds what [to_datetime], with the given day-first flag, returns for
    the source column that the renaming calls Date, missing cells filled. *)
Theorem get_data_converts_the_Date_column
        {Cell : Type} (isna : Cell → bool) (zero : Cell)
        (read_csv : string → nat → nat → result (@Table Cell))
        (to_datetime : bool → list Cell → result (list Cell))
        (csv_route date_label country_label confirmed_label deaths_label
         recovered_label : string)
        (drop_first drop_last : nat) (dayfirst : bool) (df : @Table Cell) :
  get_data isna zero read_csv to_datetime csv_route date_label country_label
           confirmed_label deaths_label recovered_label
           drop_first drop_last dayfirst = Ok df →
  ∃ source n c dates,
    read_csv csv_route drop_first drop_last = Ok source ∧
    (n, c) ∈ source ∧
    rename_label (labels date_label country_label confirmed_label deaths_label
                         recovered_label) n = "Date"%string ∧
    to_datetime dayfirst (map (λ x, if isna x then zero else x) c) = Ok dates ∧
    List.filter (named "Date") df = [("Date"%string, dates)].
Proof.
  intros H. apply get_data_Ok in H as (source & c0 & col & Hr & Hf & Ht & ->).
  assert (Hin : c0 ∈ List.filter (named "Date")
                  (rename (labels date_label country_label confirmed_label
                                  deaths_label recovered_label)
                          (fillna isna zero source))).
  { rewrite Hf. apply list_elem_of_singleton. reflexivity. }
  apply list_elem_of_In, filter_In in Hin as [Hin Hnamed].
  apply list_elem_of_In in Hin.
  unfold rename in Hin. apply list_elem_of_fmap in Hin as (c2 & -> & Hc2).
  unfold fillna in Hc2. apply list_elem_of_fmap in Hc2 as (c3 & -> & Hc3).
  destruct c3 as [n c]. simpl in *.
  unfold named in Hnamed. simpl in Hnamed. apply String.eqb_eq in Hnamed.
  exists source, n, c, col. repeat split; try assumption.
  rewrite filter_named_set_column, Hf. simpl. rewrite Hnamed. reflexivity.
Qed.

Lemma get_data_converts_the_Date_column_witness :
  ∃ source n c dates,
    read_days "covid.csv" 0 0 = Ok source ∧
    (n, c) ∈ source ∧
    rename_label (labels "Day" "Country" "Confirmed" "Deaths" "Recovered") n
    = "Date"%string ∧
    march_days false (map (λ x, if csv_isna x then Number 0 else x) c) = Ok dates ∧
    List.filter (named "Date")
      (set_column "Date" [Number 1; Number 2]
         (rename (labels "Day" "Country" "Confirmed" "Deaths" "Recovered")
            (fillna csv_isna (Number 0) csv_days)))
    = [("Date"%string, dates)].
Proof.
  apply (get_data_converts_the_Date_column csv_isna (Number 0) read_days
           march_days "covid.csv" "Day" "Country" "Confirmed" "Deaths"
           "Recovered" 0 0 false).
  vm_compute. reflexivity.
Defined.

(** ** Reduction, further *)

(** *** Errors of [clean_data] *)

Lemma clean_data_short_thresholds clock data country T t lastminute h :
  frames h !! data = Some T →
  (length t < 3)%nat →
  clean_data clock data country (Some t) lastminute h
  = (Raise IndexError, after_call country T 0 h).
Proof.
  intros Hd Hlen. unfold_clean_data. unfold after_call, selected.
  destruct t as [|t0 [|t1 [|t2 rest]]]; [| | |simpl in Hlen; lia];
    destruct (truthy_str country); rewrite Hd; run_store; reflexivity.
Qed.

(** X6: with fewer than three thresholds [clean_data] raises IndexError,
    whatever the region and the manual point; the clock is not read. *)
Theorem clean_data_needs_three_thresholds
        (clock : nat → Z) (h : Heap) (data : ref) (T : DataFrame)
        (country : option string) (t : list Z) (lastminute : option (list Z)) :
  frames h !! data = Some T →
  (length t < 3)%nat →
  fst (clean_data clock data country (Some t) lastminute h) = Raise IndexError ∧
  ticks (snd (clean_data clock data country (Some t) lastminute h)) = ticks h.
Proof.
  intros Hd Hlen.
  rewrite (clean_data_short_thresholds clock data country T t lastminute h Hd Hlen).
  split; reflexivity.
Qed.

Lemma clean_data_needs_three_thresholds_witness :
  frames (store_of two_regions) !! 0%nat = Some two_regions ∧
  (length [100; 10] < 3)%nat ∧
  fst (clean_data (stopped_at 9) 0%nat (Some "A"%string) (Some [100; 10]) None
                  (store_of two_regions)) = Raise IndexError ∧
  ticks (snd (clean_data (stopped_at 9) 0%nat (Some "A"%string) (Some [100; 10])
                         None (store_of two_regions)))
  = ticks (store_of two_regions).
Proof.
  split; [reflexivity|]. split; [simpl; lia|].
  apply (clean_data_needs_three_thresholds (stopped_at 9) (store_of two_regions)
           0%nat two_regions (Some "A"%string) [100; 10] None).
  - reflexivity.
  - simpl. lia.
Defined.

(** X7: a manual point with one or two entries makes [clean_data] raise
    IndexError, whatever the thresholds. *)
Theorem clean_data_needs_three_manual_values
        (clock : nat → Z) (h : Heap) (data : ref) (T : DataFrame)
        (country : option string) (threshold : option (list Z))
        (lastminute : list Z) :
  frames h !! data = Some T →
  lastminute ≠ [] →
  (length lastminute < 3)%nat →
  fst (clean_data clock data country threshold (Some lastminute) h)
  = Raise IndexError.
Proof.
  intros Hd Hne Hlen. unfold_clean_data. fold (thresholds threshold).
  destruct lastminute as [|v0 [|v1 [|v2 more]]];
    [contradiction| | |simpl in Hlen; lia];
    destruct (thresholds threshold) as [|t0 [|t1 [|t2 rest]]];
    destruct (truthy_str country); rewrite Hd; run_store; reflexivity.
Qed.

Lemma clean_data_needs_three_manual_values_witness :
  frames (store_of two_regions) !! 0%nat = Some two_regions ∧
  [7; 1] ≠ [] ∧ (length [7; 1] < 3)%nat ∧
  fst (clean_data (stopped_at 9) 0%nat None None (Some [7; 1])
                  (store_of two_regions)) = Raise IndexError.
Proof.
  split; [reflexivity|]. split; [discriminate|]. split; [simpl; lia|].
  apply (clean_data_needs_three_manual_values (stopped_at 9)
           (store_of two_regions) 0%nat two_regions None None [7; 1]).
  - reflexivity.
  - discriminate.
  - simpl. lia.
Defined.

(** *** No rows in use *)




(** *** The order of the rows *)

Lemma List_filter_Permutation {A} (p : A → bool) l1 l2 :
  l1 ≡ₚ l2 → List.filter p l1 ≡ₚ List.filter p l2.
Proof.
  induction 1 as [|x l1 l2 _ IH|x y l|l1 l2 l3 _ IH1 _ IH2]; simpl.
  - reflexivity.
  - destruct (p x); [constructor|]; exact IH.
  - destruct (p x), (p y); try reflexivity. constructor.
  - etrans; eassumption.
Qed.

Lemma total_Permutation col T1 T2 : T1 ≡ₚ T2 → total col T1 = total col T2.
Proof.
  unfold total.
  induction 1 as [|x l1 l2 _ IH|x y l|l1 l2 l3 _ IH1 _ IH2]; simpl; lia.
Qed.

Lemma StronglySorted_lt_NoDup keys : StronglySorted Z.lt keys → NoDup keys.
Proof.
  induction 1 as [|k rest _ IH Hall]; [constructor|].
  apply NoDup_cons. split; [|exact IH].
  intros Hin. rewrite Forall_forall in Hall. specialize (Hall k Hin). lia.
Qed.

Lemma group_keys_Permutation T1 T2 : T1 ≡ₚ T2 → group_keys T1 = group_keys T2.
Proof.
  intros HP. apply (StronglySorted_unique_strong Z.lt).
  - intros x y _ _. lia.
  - apply group_keys_sorted.
  - apply group_keys_sorted.
  - apply NoDup_Permutation; try (apply StronglySorted_lt_NoDup, group_keys_sorted).
    intros d. rewrite !elem_of_group_keys.
    split; intros (r & Hr & Hd); exists r; split; try assumption.
    + now rewrite <- HP.
    + now rewrite HP.
Qed.

Lemma summed_Permutation col T1 T2 : T1 ≡ₚ T2 → summed col T1 = summed col T2.
Proof.
  intros HP. unfold summed. rewrite (group_keys_Permutation T1 T2 HP).
  apply map_ext. intros d. apply total_Permutation.
  unfold on_date. apply List_filter_Permutation, HP.
Qed.

Lemma selected_Permutation country T1 T2 :
  T1 ≡ₚ T2 → selected country T1 ≡ₚ selected country T2.
Proof. intros HP. rewrite !selected_uses. apply List_filter_Permutation, HP. Qed.

(** What [clean_data] returns is read from the group keys and the summed
    columns of the rows in use, and from the clock. *)
Lemma clean_data_result_congruence clock a1 a2 country threshold lastminute
      h1 h2 T1 T2 :
  frames h1 !! a1 = Some T1 → frames h2 !! a2 = Some T2 →
  ticks h1 = ticks h2 →
  group_keys (selected country T1) = group_keys (selected country T2) →
  summed Confirmed (selected country T1) = summed Confirmed (selected country T2) →
  summed Deaths (selected country T1) = summed Deaths (selected country T2) →
  summed Recovered (selected country T1) = summed Recovered (selected country T2) →
  fst (clean_data clock a1 country threshold lastminute h1)
  = fst (clean_data clock a2 country threshold lastminute h2).
Proof.
  intros H1 H2 Ht Hk Hc Hd Hr. unfold_clean_data. fold (thresholds threshold).
  unfold selected in *.
  destruct (thresholds threshold) as [|t0 [|t1 [|t2 rest]]];
    destruct lastminute as [[|v0 [|v1 [|v2 more]]]|];
    destruct (truthy_str country); rewrite H1, H2; run_store;
    rewrite ?Ht, ?Hk, ?Hc, ?Hd, ?Hr; reflexivity.
Qed.

(** X9: the order of the rows of the table does not matter: on two tables
    with the same rows, [clean_data] returns the same three series (or
    raises the same exception), for every region, thresholds and manual
    point. *)
Theorem clean_data_ignores_the_row_order
        (clock : nat → Z) (h1 h2 : Heap) (data1 data2 : ref) (T1 T2 : DataFrame)
        (country : option string) (threshold lastminute : option (list Z)) :
  frames h1 !! data1 = Some T1 →
  frames h2 !! data2 = Some T2 →
  ticks h1 = ticks h2 →
  T1 ≡ₚ T2 →
  fst (clean_data clock data1 country threshold lastminute h1)
  = fst (clean_data clock data2 country threshold lastminute h2).
Proof.
  intros H1 H2 Ht HP.
  pose proof (selected_Permutation country T1 T2 HP) as HS.
  apply (clean_data_result_congruence clock data1 data2 country threshold
           lastminute h1 h2 T1 T2 H1 H2 Ht).
  - apply group_keys_Permutation, HS.
  - apply summed_Permutation, HS.
  - apply summed_Permutation, HS.
  - apply summed_Permutation, HS.
Qed.

Lemma clean_data_ignores_the_row_order_witness :
  two_regions ≡ₚ two_regions_by_region ∧
  fst (clean_data (running_from 100) 0%nat (Some "A"%string) (Some [15; 0; 0])
                  (Some [7; 1; 1]) (store_of two_regions))
  = fst (clean_data (running_from 100) 0%nat (Some "A"%string) (Some [15; 0; 0])
                    (Some [7; 1; 1]) (store_of two_regions_by_region)).
Proof.
  assert (HP : two_regions ≡ₚ two_regions_by_region).
  { apply (bool_decide_unpack _). vm_compute. exact I. }
  split; [exact HP|].
  apply (clean_data_ignores_the_row_order (running_from 100)
           (store_of two_regions) (store_of two_regions_by_region) 0%nat 0%nat
           two_regions two_regions_by_region).
  - reflexivity.
  - reflexivity.
  - reflexivity.
  - exact HP.
Defined.

(** *** The clock *)

(** X10: without a manual point ([lastminute] None or empty) [clean_data]
    does not read the clock: result and store are the same under any two
    clocks, and the count of clock readings stays as it was. *)
Theorem clean_data_reads_the_clock_only_for_a_manual_point
        (clock1 clock2 : nat → Z) (h : Heap) (data : ref)
        (country : option string) (threshold lastminute : option (list Z)) :
  lastminute = None ∨ lastminute = Some [] →
  clean_data clock1 data country threshold lastminute h
  = clean_data clock2 data country threshold lastminute h ∧
  ticks (snd (clean_data clock1 data country threshold lastminute h)) = ticks h.
Proof.
  intros Hl.
  assert (Ht : truthy_seq lastminute = false) by (destruct Hl as [-> | ->]; reflexivity).
  split.
  - unfold clean_data. rewrite Ht. reflexivity.
  - unfold_clean_data. fold (thresholds threshold). rewrite Ht.
    destruct (frames h !! data) as [T|] eqn:Hd.
    + destruct (thresholds threshold) as [|t0 [|t1 [|t2 rest]]];
        destruct (truthy_str country); rewrite Hd; run_store; reflexivity.
    + destruct (truthy_str country); rewrite Hd; run_store; reflexivity.
Qed.

Lemma clean_data_reads_the_clock_only_for_a_manual_point_witness :
  (@None (list Z) = None ∨ @None (list Z) = Some []) ∧
  clean_data (stopped_at 9) 0%nat (Some "A"%string) None None
             (store_of two_regions)
  = clean_data (running_from 100) 0%nat (Some "A"%string) None None
               (store_of two_regions) ∧
  ticks (snd (clean_data (stopped_at 9) 0%nat (Some "A"%string) None None
                         (store_of two_regions)))
  = ticks (store_of two_regions).
Proof.
  split; [left; reflexivity|].
  apply (clean_data_reads_the_clock_only_for_a_manual_point
           (stopped_at 9) (running_from 100) (store_of two_regions) 0%nat
           (Some "A"%string) None None).
  left. reflexivity.
Defined.

(** *** Raising a threshold *)

Lemma drop_duplicates_from_same_seen seen1 seen2 s :
  (∀ v, v ∈ map snd s → (v ∈ seen1 ↔ v ∈ seen2)) →
  drop_duplicates_from seen1 s = drop_duplicates_from seen2 s.
Proof.
  revert seen1 seen2. induction s as [|e rest IH]; intros seen1 seen2 Hs; simpl;
    [reflexivity|].
  assert (He : existsb (Z.eqb (snd e)) seen1 = existsb (Z.eqb (snd e)) seen2).
  { apply eq_true_iff_eq. rewrite !seen_elem_of. apply Hs. simpl. left. }
  rewrite He. destruct (existsb (Z.eqb (snd e)) seen2).
  - apply IH. intros v Hv. apply Hs. simpl. now right.
  - f_equal. apply IH. intros v Hv. rewrite !elem_of_cons.
    rewrite (Hs v) by (simpl; now right). reflexivity.
Qed.

Lemma raise_threshold t t' seen full :
  t ≤ t' →
  drop_duplicates_from seen (List.filter (λ e, t' <=? snd e) full)
  = List.filter (λ e, t' <=? snd e)
      (drop_duplicates_from seen (List.filter (λ e, t <=? snd e) full)).
Proof.
  intros Hle. revert seen. induction full as [|x rest IH]; intros seen; simpl;
    [reflexivity|].
  destruct (Z.leb_spec t' (snd x)) as [Hx'|Hx'].
  - destruct (Z.leb_spec t (snd x)) as [_|Hx]; [|lia]. simpl.
    destruct (existsb (Z.eqb (snd x)) seen); [apply IH|].
    simpl. destruct (Z.leb_spec t' (snd x)) as [_|]; [|lia].
    f_equal. apply IH.
  - destruct (Z.leb_spec t (snd x)) as [Hx|Hx]; [|apply IH]. simpl.
    destruct (existsb (Z.eqb (snd x)) seen); [apply IH|].
    simpl. destruct (Z.leb_spec t' (snd x)) as [|_]; [lia|].
    rewrite <- IH. apply drop_duplicates_from_same_seen.
    intros v Hv. rewrite elem_of_cons.
    apply list_elem_of_fmap in Hv as (e & -> & He).
    apply list_elem_of_In, filter_In in He as [_ He].
    apply Z.leb_le in He. split; [tauto|]. intros [E|H]; [lia|exact H].
Qed.

(** X11: raising the thresholds only removes the entries now below them:
    the series under higher thresholds are the series under the lower ones
    without the values below the higher thresholds; the entries that stay
    keep their dates and their order. *)
Theorem clean_data_higher_thresholds_drop_entries
        (clock : nat → Z) (h : Heap) (data : ref) (T : DataFrame)
        (country : option string) (tc td ta tc' td' ta' : Z)
        (confirmed deaths active : Series) :
  frames h !! data = Some T →
  tc ≤ tc' → td ≤ td' → ta ≤ ta' →
  fst (clean_data clock data country (Some [tc; td; ta]) None h)
  = Ok (confirmed, deaths, active) →
  fst (clean_data clock data country (Some [tc'; td'; ta']) None h)
  = Ok (List.filter (λ e, tc' <=? snd e) confirmed,
        List.filter (λ e, td' <=? snd e) deaths,
        List.filter (λ e, ta' <=? snd e) active).
Proof.
  intros Hd Hc Hde Ha Hres.
  rewrite (clean_data_plain clock data country T (Some [tc; td; ta]) tc td ta []
             None h Hd eq_refl eq_refl) in Hres.
  cbn [fst] in Hres. injection Hres as <- <- <-.
  rewrite (clean_data_plain clock data country T (Some [tc'; td'; ta']) tc' td' ta'
             [] None h Hd eq_refl eq_refl).
  cbn [fst]. unfold drop_duplicates, loc_ge.
  rewrite <- !raise_threshold by assumption. reflexivity.
Qed.

Lemma clean_data_higher_thresholds_drop_entries_witness :
  frames (store_of two_regions) !! 0%nat = Some two_regions ∧
  fst (clean_data (stopped_at 9) 0%nat None (Some [0; 0; 0]) None
                  (store_of two_regions))
  = Ok ([(1, 15); (2, 35); (3, 55)], [(1, 0); (2, 1); (3, 3)],
        [(1, 15); (2, 33); (3, 48)]) ∧
  fst (clean_data (stopped_at 9) 0%nat None (Some [20; 1; 40]) None
                  (store_of two_regions))
  = Ok (List.filter (λ e, 20 <=? snd e) [(1, 15); (2, 35); (3, 55)],
        List.filter (λ e, 1 <=? snd e) [(1, 0); (2, 1); (3, 3)],
        List.filter (λ e, 40 <=? snd e) [(1, 15); (2, 33); (3, 48)]).
Proof.
  split; [reflexivity|]. split; [vm_compute; reflexivity|].
  apply (clean_data_higher_thresholds_drop_entries (stopped_at 9)
           (store_of two_regions) 0%nat two_regions None 0 0 0 20 1 40).
  - reflexivity.
  - lia.
  - lia.
  - lia.
  - vm_compute. reflexivity.
Defined.

(** *** The values of the series *)

Lemma total_on_selected col country d T :
  total col (on_date d (selected country T)) = total_on col country d T.
Proof.
  unfold total_on, on_date. rewrite selected_uses, filter_filter. reflexivity.
Qed.

Lemma elem_of_filtered_series t (keys col : list Z) d v :
  (d, v) ∈ drop_duplicates (loc_ge t keys col) →
  ∃ i, keys !! i = Some d ∧ col !! i = Some v.
Proof.
  intros Hin. unfold drop_duplicates, loc_ge in Hin.
  apply (sublist_subseteq _ _ (drop_duplicates_from_sublist _ _)) in Hin.
  apply (sublist_subseteq _ _ (sublist_List_filter _ _)) in Hin.
  apply elem_of_lookup_zip_with in Hin as (i & x & y & [= -> ->] & Hx & Hy).
  exists i. split; assumption.
Qed.

(** X12: every entry of a returned series (no manual point) is a per-date
    total of the table: at a date of some row in use, the confirmed and
    deaths entries are the sums of these columns over the rows in use of
    that date, and the active entry is the confirmed sum less the deaths sum
    less the recovered sum. *)
Theorem clean_data_entries_are_totals
        (clock : nat → Z) (h : Heap) (data : ref) (T : DataFrame)
        (country : option string) (threshold : option (list Z))
        (confirmed deaths active : Series) :
  frames h !! data = Some T →
  fst (clean_data clock data country threshold None h)
  = Ok (confirmed, deaths, active) →
  (∀ d v, (d, v) ∈ confirmed → v = total_on Confirmed country d T) ∧
  (∀ d v, (d, v) ∈ deaths → v = total_on Deaths country d T) ∧
  (∀ d v, (d, v) ∈ active →
          v = total_on Confirmed country d T - total_on Deaths country d T
              - total_on Recovered country d T) ∧
  (∀ d v, (d, v) ∈ confirmed ∨ (d, v) ∈ deaths ∨ (d, v) ∈ active →
          ∃ r, r ∈ T ∧ uses country r = true ∧ Date r = d).
Proof.
  intros Hd Hres.
  destruct (clean_data_series _ _ _ _ _ _ _ _ _ Hd Hres)
    as (tc & td & ta & rest & _ & -> & -> & ->).
  repeat split.
  - intros d v Hin. apply elem_of_filtered_series in Hin as (i & Hk & Hv).
    rewrite (lookup_summed _ _ i d Hk) in Hv. injection Hv as <-.
    apply total_on_selected.
  - intros d v Hin. apply elem_of_filtered_series in Hin as (i & Hk & Hv).
    rewrite (lookup_summed _ _ i d Hk) in Hv. injection Hv as <-.
    apply total_on_selected.
  - intros d v Hin. apply elem_of_filtered_series in Hin as (i & Hk & Hv).
    rewrite (lookup_active_column _ i d Hk) in Hv. injection Hv as <-.
    rewrite !total_on_selected. reflexivity.
  - intros d v Hin.
    assert (Hk : d ∈ group_keys (selected country T)).
    { destruct Hin as [Hin|[Hin|Hin]];
        apply elem_of_filtered_series in Hin as (i & Hk & _);
        eapply list_elem_of_lookup_2; exact Hk. }
    apply elem_of_group_keys in Hk as (r & Hr & Hdate).
    rewrite selected_uses in Hr.
    apply list_elem_of_In, filter_In in Hr as [Hr Hu].
    exists r. repeat split; try assumption. now apply list_elem_of_In.
Qed.

Lemma clean_data_entries_are_totals_witness :
  frames (store_of two_regions) !! 0%nat = Some two_regions ∧
  (∀ d v, (d, v) ∈ [(1, 10); (2, 20); (3, 30)] →
          v = total_on Confirmed (Some "A"%string) d two_regions) ∧
  (∀ d v, (d, v) ∈ [(1, 0); (2, 1); (3, 2)] →
          v = total_on Deaths (Some "A"%string) d two_regions) ∧
  (∀ d v, (d, v) ∈ [(1, 10); (2, 19); (3, 25)] →
          v = total_on Confirmed (Some "A"%string) d two_regions
              - total_on Deaths (Some "A"%string) d two_regions
              - total_on Recovered (Some "A"%string) d two_regions) ∧
  (∀ d v, (d, v) ∈ [(1, 10); (2, 20); (3, 30)] ∨ (d, v) ∈ [(1, 0); (2, 1); (3, 2)]
          ∨ (d, v) ∈ [(1, 10); (2, 19); (3, 25)] →
          ∃ r, r ∈ two_regions ∧ uses (Some "A"%string) r = true ∧ Date r = d).
Proof.
  split; [reflexivity|].
  apply (clean_data_entries_are_totals (stopped_at 9) (store_of two_regions)
           0%nat two_regions (Some "A"%string) None).
  - reflexivity.
  - vm_compute. reflexivity.
Defined.

(** ** Comparison *)

Section ComparisonFacts.

Variable clock : nat → Z.
Context {Figure : Type}.
Variable plot_lines : list (string * list Z * list Z) → Z → result Figure.
Variable writable : string → bool.

Lemma after_call_frames country T n h b X :
  frames h !! b = Some X → frames (after_call country T n h) !! b = Some X.
Proof.
  intros H. unfold after_call. cbn [frames].
  destruct (truthy_str country); [apply lookup_app_l_Some|]; exact H.
Qed.

Lemma clean_each_run data countries T t0 t1 t2 rest h :
  frames h !! data = Some T →
  ∃ h', clean_each clock data countries (t0 :: t1 :: t2 :: rest) h
        = (Ok (map (λ c, series_of (Some c) T t0 t1 t2) countries), h') ∧
        frames h' !! data = Some T.
Proof.
  revert h. induction countries as [|c cs IH]; intros h Hd.
  - exists h. split; [reflexivity|exact Hd].
  - destruct (IH (after_call (Some c) T 0 h)) as (h' & Hrun & Hd').
    { apply after_call_frames, Hd. }
    exists h'. split; [|exact Hd'].
    cbn [clean_each]. unfold mbind, M_bind.
    rewrite (clean_data_plain clock data (Some c) T
               (Some (t0 :: t1 :: t2 :: rest)) t0 t1 t2 rest None h Hd
               eq_refl eq_refl).
    rewrite Hrun. reflexivity.
Qed.

Lemma clean_each_frames data countries threshold T h :
  frames h !! data = Some T →
  ∀ b X, frames h !! b = Some X →
         frames (snd (clean_each clock data countries threshold h)) !! b = Some X.
Proof.
  revert h. induction countries as [|c cs IH]; intros h Hd b X Hb.
  - exact Hb.
  - cbn [clean_each]. unfold mbind, M_bind.
    destruct (clean_data_store clock data (Some c) T (Some threshold) None h Hd)
      as [n Hs].
    destruct (clean_data clock data (Some c) (Some threshold) None h)
      as [[v|e] h1]; cbn [snd] in Hs; subst h1.
    + specialize (IH (after_call (Some c) T n h)
                     (after_call_frames _ _ _ _ _ _ Hd) b X
                     (after_call_frames _ _ _ _ _ _ Hb)).
      destruct (clean_each clock data cs threshold (after_call (Some c) T n h))
        as [[vs|e] h2]; exact IH.
    + apply after_call_frames, Hb.
Qed.

Lemma clean_each_short data countries t T h :
  frames h !! data = Some T → countries ≠ [] → (length t < 3)%nat →
  fst (clean_each clock data countries t h) = Raise IndexError.
Proof.
  intros Hd Hne Hlen. destruct countries as [|c cs]; [contradiction|].
  cbn [clean_each]. unfold mbind, M_bind.
  rewrite (clean_data_short_thresholds clock data (Some c) T t None h Hd Hlen).
  reflexivity.
Qed.

Lemma compare_Ok data countries filename threshold scale w vals :
  fst (compare clock Figure plot_lines writable data countries filename
               threshold scale w) = Ok vals →
  fst (clean_each clock data countries
                  (match threshold with None => [100; 10; 100] | Some t => t end)
                  (heap w)) = Ok vals.
Proof.
  unfold compare, in_heap, save_figure, lift, mbind, M_bind, mret, M_ret.
  destruct (clean_each clock data countries _ (heap w)) as [[vs|e] h'];
    cbn [fst snd]; [|discriminate].
  destruct (plot_lines (plotted countries vs) scale) as [fig|e];
    cbn [fst snd]; [|discriminate].
  destruct (writable filename); cbn [fst snd]; [|discriminate].
  intros [= ->]. reflexivity.
Qed.

End ComparisonFacts.

(** X13: the list that [compare] returns has one entry per country, in the
    order of [countries]; the entry of a country is what a call of
    [clean_data] for that country alone returns on the table as it was, with
    the thresholds in force (100, 10, 100 when omitted) and no manual
    point. *)
Theorem compare_returns_the_series_of_each_country
        (clock : nat → Z) {Figure : Type}
        (plot_lines : list (string * list Z * list Z) → Z → result Figure)
        (writable : string → bool)
        (data : ref) (countries : list string) (filename : string)
        (threshold : option (list Z)) (scale : Z) (w : Desk Figure)
        (T : DataFrame) (vals : list (Series * Series * Series)) :
  frames (heap w) !! data = Some T →
  fst (compare clock Figure plot_lines writable data countries filename
               threshold scale w) = Ok vals →
  length vals = length countries ∧
  ∀ i c, countries !! i = Some c →
         ∃ v, vals !! i = Some v ∧
              fst (clean_data clock data (Some c)
                     (Some (match threshold with
                            | None => [100; 10; 100]
                            | Some t => t
                            end)) None (heap w)) = Ok v.
Proof.
  intros Hd Hres. apply compare_Ok in Hres.
  destruct (match threshold with None => [100; 10; 100] | Some t => t end)
    as [|t0 [|t1 [|t2 rest]]] eqn:Hthr.
  1-3: destruct countries as [|c0 cs];
    [cbn in Hres; injection Hres as <-;
     split; [reflexivity|intros i c Hi; discriminate]
    |rewrite (clean_each_short clock data (c0 :: cs) _ T (heap w) Hd) in Hres;
     [discriminate|discriminate|simpl; lia]].
  destruct (clean_each_run clock data countries T t0 t1 t2 rest (heap w) Hd)
    as (h' & Hrun & _).
  rewrite Hrun in Hres. cbn [fst] in Hres. injection Hres as <-.
  split; [apply length_map|].
  intros i c Hi. exists (series_of (Some c) T t0 t1 t2). split.
  - rewrite list_lookup_fmap, Hi. reflexivity.
  - rewrite (clean_data_plain clock data (Some c) T
               (Some (t0 :: t1 :: t2 :: rest)) t0 t1 t2 rest None (heap w) Hd
               eq_refl eq_refl).
    reflexivity.
Qed.

Lemma compare_returns_the_series_of_each_country_witness :
  frames (heap (desk_of two_regions)) !! 0%nat = Some two_regions ∧
  fst (compare (stopped_at 9) _ lines_as_figure any_route 0%nat
               ["A"; "B"]%string "compare.png" (Some [10; 0; 0]) 1000
               (desk_of two_regions))
  = Ok [([(1, 10); (2, 20); (3, 30)], [(1, 0); (2, 1); (3, 2)],
         [(1, 10); (2, 19); (3, 25)]);
        ([(2, 15); (3, 25)], [(1, 0); (3, 1)], [(1, 5); (2, 14); (3, 23)])] ∧
  length [([(1, 10); (2, 20); (3, 30)], [(1, 0); (2, 1); (3, 2)],
           [(1, 10); (2, 19); (3, 25)]);
          ([(2, 15); (3, 25)], [(1, 0); (3, 1)], [(1, 5); (2, 14); (3, 23)])]
  = length ["A"; "B"]%string ∧
  ∀ i c, ["A"; "B"]%string !! i = Some c →
         ∃ v, [([(1, 10); (2, 20); (3, 30)], [(1, 0); (2, 1); (3, 2)],
                [(1, 10); (2, 19); (3, 25)]);
               ([(2, 15); (3, 25)], [(1, 0); (3, 1)], [(1, 5); (2, 14); (3, 23)])] !! i
              = Some v ∧
              fst (clean_data (stopped_at 9) 0%nat (Some c) (Some [10; 0; 0]) None
                              (heap (desk_of two_regions))) = Ok v.
Proof.
  split; [reflexivity|]. split; [vm_compute; reflexivity|].
  apply (compare_returns_the_series_of_each_country (stopped_at 9)
           lines_as_figure any_route 0%nat ["A"; "B"]%string "compare.png"
           (Some [10; 0; 0]) 1000 (desk_of two_regions) two_regions).
  - reflexivity.
  - vm_compute. reflexivity.
Defined.

(** X14: [compare] writes an image exactly when it returns: on success one
    image, the figure of the plotted lines, is added under [filename]; when
    it raises, no image is written. *)
Theorem compare_saves_only_on_success
        (clock : nat → Z) {Figure : Type}
        (plot_lines : list (string * list Z * list Z) → Z → result Figure)
        (writable : string → bool)
        (data : ref) (countries : list string) (filename : string)
        (threshold : option (list Z)) (scale : Z) (w : Desk Figure) :
  (∃ vals fig,
      fst (compare clock Figure plot_lines writable data countries filename
                   threshold scale w) = Ok vals ∧
      plot_lines (plotted countries vals) scale = Ok fig ∧
      figures (snd (compare clock Figure plot_lines writable data countries
                            filename threshold scale w))
      = (filename, fig) :: figures w) ∨
  (∃ e,
      fst (compare clock Figure plot_lines writable data countries filename
                   threshold scale w) = Raise e ∧
      figures (snd (compare clock Figure plot_lines writable data countries
                            filename threshold scale w))
      = figures w).
Proof.
  unfold compare, in_heap, save_figure, lift, mbind, M_bind, mret, M_ret.
  destruct (clean_each clock data countries _ (heap w)) as [[vs|e] h'];
    cbn [fst snd]; [|right; eauto].
  destruct (plot_lines (plotted countries vs) scale) as [fig|e] eqn:Hp;
    cbn [fst snd]; [|right; eauto].
  destruct (writable filename); cbn [fst snd figures]; [|right; eauto].
  left. exists vs, fig. repeat split; assumption || reflexivity.
Qed.

(** X15: [compare] leaves the caller's table, and every frame that existed
    before the call, as it was, also when it raises. *)
Theorem compare_leaves_the_table_unchanged
        (clock : nat → Z) {Figure : Type}
        (plot_lines : list (string * list Z * list Z) → Z → result Figure)
        (writable : string → bool)
        (data : ref) (countries : list string) (filename : string)
        (threshold : option (list Z)) (scale : Z) (w : Desk Figure)
        (T : DataFrame) :
  frames (heap w) !! data = Some T →
  ∀ other X,
    frames (heap w) !! other = Some X →
    frames (heap (snd (compare clock Figure plot_lines writable data countries
                               filename threshold scale w))) !! other = Some X.
Proof.
  intros Hd other X HX.
  pose proof (clean_each_frames clock data countries
                (match threshold with None => [100; 10; 100] | Some t => t end)
                T (heap w) Hd other X HX) as Hf.
  unfold compare, in_heap, save_figure, lift, mbind, M_bind, mret, M_ret.
  destruct (clean_each clock data countries _ (heap w)) as [[vs|e] h'];
    cbn [fst snd] in *; [|exact Hf].
  destruct (plot_lines (plotted countries vs) scale) as [fig|e];
    cbn [fst snd heap]; [|exact Hf].
  destruct (writable filename); cbn [fst snd heap]; exact Hf.
Qed.

Lemma compare_leaves_the_table_unchanged_witness :
  frames (heap (desk_of two_regions)) !! 0%nat = Some two_regions ∧
  frames (heap (snd (compare (stopped_at 9) _ lines_as_figure any_route 0%nat
                             ["A"; "B"]%string "compare.png" None 1000
                             (desk_of two_regions)))) !! 0%nat
  = Some two_regions.
Proof.
  split; [reflexivity|].
  apply (compare_leaves_the_table_unchanged (stopped_at 9) lines_as_figure
           any_route 0%nat ["A"; "B"]%string "compare.png" None 1000
           (desk_of two_regions) two_regions).
  - reflexivity.
  - reflexivity.
Defined.

(** X16: with fewer than three thresholds and at least one country,
    [compare] raises IndexError and writes no image. *)
Theorem compare_needs_three_thresholds
        (clock : nat → Z) {Figure : Type}
        (plot_lines : list (string * list Z * list Z) → Z → result Figure)
        (writable : string → bool)
        (data : ref) (countries : list string) (filename : string)
        (t : list Z) (scale : Z) (w : Desk Figure) (T : DataFrame) :
  frames (heap w) !! data = Some T →
  countries ≠ [] →
  (length t < 3)%nat →
  fst (compare clock Figure plot_lines writable data countries filename
               (Some t) scale w) = Raise IndexError ∧
  figures (snd (compare clock Figure plot_lines writable data countries
                        filename (Some t) scale w)) = figures w.
Proof.
  intros Hd Hne Hlen.
  pose proof (clean_each_short clock data countries t T (heap w) Hd Hne Hlen) as Hs.
  unfold compare, in_heap, mbind, M_bind.
  destruct (clean_each clock data countries t (heap w)) as [r h'].
  cbn [fst snd] in *. subst r. split; reflexivity.
Qed.

Lemma compare_needs_three_thresholds_witness :
  frames (heap (desk_of two_regions)) !! 0%nat = Some two_regions ∧
  ["A"; "B"]%string ≠ [] ∧ (length [100] < 3)%nat ∧
  fst (compare (stopped_at 9) _ lines_as_figure any_route 0%nat
               ["A"; "B"]%string "compare.png" (Some [100]) 1000
               (desk_of two_regions)) = Raise IndexError ∧
  figures (snd (compare (stopped_at 9) _ lines_as_figure any_route 0%nat
                        ["A"; "B"]%string "compare.png" (Some [100]) 1000
                        (desk_of two_regions)))
  = figures (desk_of two_regions).
Proof.
  split; [reflexivity|]. split; [discriminate|]. split; [simpl; lia|].
  apply (compare_needs_three_thresholds (stopped_at 9) lines_as_figure any_route
           0%nat ["A"; "B"]%string "compare.png" [100] 1000
           (desk_of two_regions) two_regions).
  - reflexivity.
  - discriminate.
  - simpl. lia.
Defined.

(** ** Fitting, further *)



Section FittingMore.

Context {float Model Figure : Type}.
Variable float_lt : float → float → bool.
Variable solve : Model → list Z → list Z → option (list float) →
                 list float → list float → result (list float).
Variable draw : Model → list Z → Series → list Z → list float → Z → Z → Z →
                result Figure.
Variable day_label : Z → Z → string.
Variable decorate : Figure → list Z → list string → string → Figure.
Variable writable : string → bool.

Ltac unfold_fit :=
  unfold fit, curve_fit, run_solver, savefig, lift, raise, mbind, M_bind,
    mret, M_ret; cbn [fst snd].


(** X18: on an empty series [fit] raises and writes no image. *)
Theorem fit_of_an_empty_series_fails
        (model : Model) (lbounds gbounds : list float)
        (guess : option (list float)) (route title : string)
        (tmin tmax scale days_range : Z) (w : Disk Figure) :
  (∃ e, fst (fit float float_lt Model Figure solve draw day_label decorate
                 writable [] model lbounds gbounds guess route title
                 tmin tmax scale days_range w) = Raise e) ∧
  images (snd (fit float float_lt Model Figure solve draw day_label decorate
                   writable [] model lbounds gbounds guess route title
                   tmin tmax scale days_range w))
  = images w.
Proof.
  unfold_fit.
  destruct (exceeds float float_lt lbounds gbounds
            || outside float float_lt guess lbounds gbounds);
    cbn [fst snd images]; [eauto|].
  destruct (solve model _ _ guess lbounds gbounds) as [sol|e];
    cbn [fst snd images]; [|eauto].
  destruct (draw model _ [] _ sol scale tmin tmax) as [fig|e];
    cbn [fst snd images]; eauto.
Qed.

(** X19: with [days_range] 0 [fit] raises and writes no image; when the
    bounds are accepted, the solver and the drawing succeed and the series
    is not empty, the exception is the ValueError of the slice of step 0,
    raised after the solver has run. *)
Theorem fit_with_a_zero_tick_stride_fails
        (values : Series) (model : Model) (lbounds gbounds : list float)
        (guess : option (list float)) (route title : string)
        (tmin tmax scale : Z) (w : Disk Figure) :
  (∃ e, fst (fit float float_lt Model Figure solve draw day_label decorate
                 writable values model lbounds gbounds guess route title
                 tmin tmax scale 0 w) = Raise e) ∧
  images (snd (fit float float_lt Model Figure solve draw day_label decorate
                   writable values model lbounds gbounds guess route title
                   tmin tmax scale 0 w))
  = images w ∧
  (∀ sol fig,
      exceeds float float_lt lbounds gbounds
      || outside float float_lt guess lbounds gbounds = false →
      solve model (arange 0 (Z.of_nat (length values))) (map snd values)
            guess lbounds gbounds = Ok sol →
      draw model (arange 0 (Z.of_nat (length values))) values
           (arange tmin tmax) sol scale tmin tmax = Ok fig →
      values ≠ [] →
      fit float float_lt Model Figure solve draw day_label decorate
          writable values model lbounds gbounds guess route title
          tmin tmax scale 0 w
      = (Raise ValueError,
         {| images := images w; solver_runs := S (solver_runs w) |})).
Proof.
  split; [|split].
  - unfold_fit.
    destruct (exceeds float float_lt lbounds gbounds
              || outside float float_lt guess lbounds gbounds);
      cbn [fst snd]; [eauto|].
    destruct (solve model _ _ guess lbounds gbounds) as [sol|e];
      cbn [fst snd]; [|eauto].
    destruct (draw model _ values _ sol scale tmin tmax) as [fig|e];
      cbn [fst snd]; [|eauto].
    destruct (py_index (map fst values) 0) as [d0|e]; cbn [fst snd]; eauto.
  - unfold_fit.
    destruct (exceeds float float_lt lbounds gbounds
              || outside float float_lt guess lbounds gbounds);
      cbn [fst snd images]; [reflexivity|].
    destruct (solve model _ _ guess lbounds gbounds) as [sol|e];
      cbn [fst snd images]; [|reflexivity].
    destruct (draw model _ values _ sol scale tmin tmax) as [fig|e];
      cbn [fst snd images]; [|reflexivity].
    destruct (py_index (map fst values) 0) as [d0|e];
      cbn [fst snd images]; reflexivity.
  - intros sol fig Hb Hs Hdr Hne. unfold_fit. rewrite Hb, Hs. cbn [fst snd].
    rewrite Hdr. cbn [fst snd].
    destruct values as [|e rest]; [contradiction|]. reflexivity.
Qed.

End FittingMore.


Lemma fit_with_a_zero_tick_stride_fails_witness :
  fit Z Z.ltb unit unit guess_back no_drawing fixed_label plain_decorate any_route
      [(1, 10); (2, 20); (3, 30)] tt [0; 1] [10; 5] (Some [2; 3])
      "figures/" "Logistic Model" 0 50 1000 0 empty_disk
  = (Raise ValueError,
     {| images := images empty_disk; solver_runs := S (solver_runs empty_disk) |}).
Proof.
  apply (proj2 (proj2 (fit_with_a_zero_tick_stride_fails Z.ltb guess_back
                         no_drawing fixed_label plain_decorate any_route
                         [(1, 10); (2, 20); (3, 30)] tt [0; 1] [10; 5]
                         (Some [2; 3]) "figures/" "Logistic Model" 0 50 1000
                         empty_disk)) [2; 3] tt).
  - reflexivity.
  - reflexivity.
  - reflexivity.
  - discriminate.
Defined.

(** *** The file name *)

Lemma lower_char_not_upper c :
  ¬ (65 ≤ nat_of_ascii (lower_char c) ≤ 90)%nat.
Proof.
  unfold lower_char.
  destruct ((65 <=? nat_of_ascii c) && (nat_of_ascii c <=? 90))%nat eqn:E.
  - apply andb_true_iff in E as [E1 E2].
    apply Nat.leb_le in E1, E2.
    rewrite nat_ascii_embedding by lia. lia.
  - apply andb_false_iff in E as [E|E]; apply Nat.leb_gt in E; lia.
Qed.

Lemma lower_char_ascii c :
  (nat_of_ascii c <? 128)%nat = true →
  (nat_of_ascii (lower_char c) <? 128)%nat = true.
Proof.
  intros Hc. unfold lower_char.
  destruct ((65 <=? nat_of_ascii c) && (nat_of_ascii c <=? 90))%nat eqn:E;
    [|exact Hc].
  apply andb_true_iff in E as [E1 E2].
  apply Nat.leb_le in E1, E2.
  rewrite nat_ascii_embedding by lia.
  apply Nat.ltb_lt. lia.
Qed.

(** X20: for a title of ASCII characters, the file name that [fit] derives
    from the title has the length of the title, is made of ASCII characters,
    and holds no space and no upper-case letter. *)
Theorem fit_file_name_is_a_slug (title : string) :
  ascii_only title = true →
  String.length (replace_char " " "_" (lower title)) = String.length title ∧
  ascii_only (replace_char " " "_" (lower title)) = true ∧
  slug_like (replace_char " " "_" (lower title)).
Proof.
  induction title as [|c rest IH]; simpl; [intros _; repeat split|].
  intros Hall. apply andb_true_iff in Hall as [Hc Hrest].
  destruct (IH Hrest) as (IHl & IHa & IHs).
  split; [f_equal; exact IHl|].
  destruct (Ascii.eqb_spec (lower_char c) " "%char) as [E|E]; simpl.
  - split; [exact IHa|].
    split; [discriminate|]. split; [vm_compute; lia|exact IHs].
  - split; [rewrite (lower_char_ascii c Hc); exact IHa|].
    split; [exact E|]. split; [apply lower_char_not_upper|exact IHs].
Qed.

Lemma fit_file_name_is_a_slug_witness :
  ascii_only "Logistic Model" = true ∧
  replace_char " " "_" (lower "Logistic Model") = "logistic_model"%string ∧
  String.length (replace_char " " "_" (lower "Logistic Model"))
  = String.length "Logistic Model" ∧
  ascii_only (replace_char " " "_" (lower "Logistic Model")) = true ∧
  slug_like (replace_char " " "_" (lower "Logistic Model")).
Proof.
  split; [reflexivity|].
  split; [reflexivity|].
  apply (fit_file_name_is_a_slug "Logistic Model"). reflexivity.
Defined.

(** *** Tick positions *)

Lemma every_nth_from_lookup {A} (k' skip : nat) (l : list A) i :
  every_nth_from k' skip l !! i = l !! (skip + i * S k')%nat.
Proof.
  revert skip i. induction l as [|x rest IH]; intros skip i; simpl.
  - rewrite !lookup_nil. reflexivity.
  - destruct skip as [|n].
    + destruct i as [|j]; [reflexivity|]. simpl. rewrite IH. reflexivity.
    + simpl. apply IH.
Qed.

Lemma every_nth_from_map {A B} (f : A → B) (k' skip : nat) (l : list A) :
  every_nth_from k' skip (map f l) = map f (every_nth_from k' skip l).
Proof.
  revert skip. induction l as [|x rest IH]; intros skip; simpl; [reflexivity|].
  destruct skip; simpl; rewrite IH; reflexivity.
Qed.

(** X21: the slice [l[::k]] with a step [k] other than 0 holds, at position
    i, the element of [l] at position i * k for a positive step, and the
    element i * |k| places from the end for a negative one; slicing the
    labels gives the labels of the sliced ticks. *)
Theorem slice_step_takes_every_kth {A B} (k : Z) (l : list A) (f : A → B) :
  k ≠ 0 →
  ∃ r, slice_step k l = Ok r ∧
       (∀ i, r !! i = (if 0 <? k then l else rev l) !! (i * Z.to_nat (Z.abs k))%nat) ∧
       slice_step k (map f l) = Ok (map f r).
Proof.
  intros Hk. destruct k as [|p|p]; [contradiction| |]; simpl;
    pose proof (Pos2Nat.is_pos p) as Hp.
  - eexists. split; [reflexivity|]. split.
    + intros i. unfold every_nth. rewrite every_nth_from_lookup.
      replace (S (Nat.pred (Pos.to_nat p))) with (Pos.to_nat p) by lia.
      reflexivity.
    + unfold every_nth. rewrite every_nth_from_map. reflexivity.
  - eexists. split; [reflexivity|]. split.
    + intros i. unfold every_nth. rewrite every_nth_from_lookup.
      replace (S (Nat.pred (Pos.to_nat p))) with (Pos.to_nat p) by lia.
      reflexivity.
    + unfold every_nth. rewrite <- map_rev, every_nth_from_map. reflexivity.
Qed.

Lemma slice_step_takes_every_kth_witness :
  7 ≠ 0 ∧
  ∃ r, slice_step 7 (arange 0 50) = Ok r ∧
       (∀ i, r !! i = (if 0 <? 7 then arange 0 50 else rev (arange 0 50))
                        !! (i * Z.to_nat (Z.abs 7))%nat) ∧
       slice_step 7 (map (fixed_label 1) (arange 0 50))
       = Ok (map (fixed_label 1) r).
Proof.
  split; [discriminate|].
  apply (slice_step_takes_every_kth 7 (arange 0 50) (fixed_label 1)).
  discriminate.
Defined.
